(** * trm.doppler: the Image and Map containers and the memit front end

    A shallow embedding of [trm/doppler/map.py] and [scripts/memit.py].

    Python values are typed by what the code does with them: arrays are
    inspected only through [ndim], [len], iteration and the items of
    one-dimensional arrays.  A float is a rational, an infinity or nan;
    the code stores and copies floats and converts integers and text to
    them, and these conversions round as IEEE 754 doubles do.
    Exceptions are values of [exn]; a statement that can raise is a
    computation in the state-and-exception monad [M], which keeps the
    state reached when the exception left the code. *)

From Stdlib Require Import List String Ascii ZArith QArith Bool Arith Lia.
From Stdlib Require Import DecimalString DecimalNat.
Import ListNotations.
Close Scope Q_scope.
Open Scope string_scope.
Open Scope nat_scope.
Open Scope list_scope.

(** ** Python values *)

(** A float: a finite value, an infinity or nan.  A finite float is
    given by its value; the floats of the machine are the values that
    [binary64] below returns, and nothing the code does to a float
    depends on which rational it is. *)
Inductive float :=
| Finite (x : Q)
| Inf (negative : bool)
| NaN.

Coercion Finite : Q >-> float.

Definition is_finite (x : float) : bool :=
  match x with
  | Finite _ => true
  | _ => false
  end.

(** A list of finite floats. *)
Definition floats (l : list Q) : list float := map Finite l.

(** The scalars of the code: integers, floats and text. *)
Inductive scalar :=
| SInt (z : Z)
| SFloat (x : float)
| SStr (s : string).

(** numpy arrays, split by rank.  A rank-0 array holds one number, a
    rank-1 array is its list of items, and an array of rank two or more
    is kept as its first two dimensions, the remaining dimensions and its
    buffer. *)
Inductive ndarray :=
| Arr0 (x : float)
| Arr1 (xs : list float)
| ArrN (d0 d1 : nat) (ds : list nat) (buf : list float).

Inductive pyobj :=
| PyNone
| PyScalar (v : scalar)
| PyArray (a : ndarray).

Inductive exn :=
| DopplerError (msg : string)
| TypeError
| ValueError
| OverflowError
| KeyError (key : string)
| IndexError
| AttributeError.

Inductive result (A : Type) :=
| Ok (a : A)
| Raise (e : exn).
Arguments Ok {A} a.
Arguments Raise {A} e.

Definition is_DopplerError {A} (r : result A) : bool :=
  match r with
  | Raise (DopplerError _) => true
  | _ => false
  end.

Definition is_Ok {A} (r : result A) : bool :=
  match r with
  | Ok _ => true
  | Raise _ => false
  end.

(** ** State and exceptions *)

Definition M (S A : Type) := S -> result A * S.

Definition ret {S A} (a : A) : M S A := fun s => (Ok a, s).
Definition raise {S A} (e : exn) : M S A := fun s => (Raise e, s).
Definition lift {S A} (r : result A) : M S A := fun s => (r, s).
Definition bind {S A B} (m : M S A) (k : A -> M S B) : M S B :=
  fun s =>
    match m s with
    | (Ok a, s') => k a s'
    | (Raise e, s') => (Raise e, s')
    end.

Notation "x <~ m ;; k" := (bind m (fun x => k))
  (at level 61, m at next level, right associativity).
Notation "m ;; k" := (bind m (fun _ => k))
  (at level 61, right associativity).

(** [if c: raise e] *)
Definition raise_if {S} (c : bool) (e : exn) : M S unit :=
  if c then raise e else ret tt.

(** The same for code that only computes a value. *)
Definition rbind {A B} (r : result A) (k : A -> result B) : result B :=
  match r with
  | Ok a => k a
  | Raise e => Raise e
  end.

Notation "x <- r ;; k" := (rbind r (fun x => k))
  (at level 61, r at next level, right associativity).

(** ** Built-ins *)

Definition ndim (a : ndarray) : nat :=
  match a with
  | Arr0 _ => 0
  | Arr1 _ => 1
  | ArrN _ _ ds _ => 2 + List.length ds
  end.

(** [len(a)]: a rank-0 array is unsized. *)
Definition py_len (a : ndarray) : result nat :=
  match a with
  | Arr0 _ => Raise TypeError
  | Arr1 xs => Ok (List.length xs)
  | ArrN d0 _ _ _ => Ok d0
  end.

(** The integer nearest to [n / d], for [d > 0]; halves go to the even
    neighbour. *)
Definition round_half_even (n d : Z) : Z :=
  let q := (n / d)%Z in
  match (2 * (n mod d) ?= d)%Z with
  | Lt => q
  | Gt => (q + 1)%Z
  | Eq => if Z.even q then q else (q + 1)%Z
  end.

(** The double nearest to a rational (IEEE 754 binary64, round to
    nearest, ties to even), [Inf] beyond the range. *)
Definition binary64 (q : Q) : float :=
  let a := Z.abs (Qnum q) in
  let d := Z.pos (Qden q) in
  if (a =? 0)%Z then Finite 0
  else
    let negative := (Qnum q <? 0)%Z in
    let e0 := (Z.log2 a - Z.log2 d)%Z in
    let below :=
      if (0 <=? e0)%Z then (a <? d * 2 ^ e0)%Z
      else (a * 2 ^ (- e0) <? d)%Z in
    let e := Z.max (if below then e0 - 1 else e0) (-1022) in
    let k := (e - 52)%Z in
    let m :=
      if (0 <=? k)%Z then round_half_even a (d * 2 ^ k)
      else round_half_even (a * 2 ^ (- k)) d in
    let s := if negative then (- m)%Z else m in
    if (0 <=? k)%Z
    then if (2 ^ 1024 <=? m * 2 ^ k)%Z then Inf negative
         else Finite (inject_Z (s * 2 ^ k))
    else Finite (Qred (Qmake s (Z.to_pos (2 ^ (- k))))).

(** [float(z)] for an integer *)
Definition float_of_int (z : Z) : result float :=
  match binary64 (inject_Z z) with
  | Inf _ => Raise OverflowError
  | x => Ok x
  end.

Definition is_space (c : ascii) : bool :=
  let n := nat_of_ascii c in
  (n =? 32) || ((9 <=? n) && (n <=? 13)).

Definition is_digit (c : ascii) : bool :=
  let n := nat_of_ascii c in
  (48 <=? n) && (n <=? 57).

Definition lower (c : ascii) : ascii :=
  let n := nat_of_ascii c in
  if (65 <=? n) && (n <=? 90) then ascii_of_nat (n + 32) else c.

Fixpoint drop_spaces (l : list ascii) : list ascii :=
  match l with
  | c :: l' => if is_space c then drop_spaces l' else l
  | [] => []
  end.

(** [s.strip()] and [s.rstrip()] on the characters of a text. *)
Definition rstrip_chars (l : list ascii) : list ascii :=
  rev (drop_spaces (rev l)).

Definition strip_chars (l : list ascii) : list ascii :=
  rstrip_chars (drop_spaces l).

(** The leading digits of a text, as a number with their count, and the
    rest. *)
Fixpoint digits (l : list ascii) (acc : Z) (count : nat)
    : Z * nat * list ascii :=
  match l with
  | c :: l' =>
      if is_digit c
      then digits l' (10 * acc + Z.of_nat (nat_of_ascii c - 48))%Z (S count)
      else (acc, count, l)
  | [] => (acc, count, [])
  end.

Definition take_sign (l : list ascii) : bool * list ascii :=
  match l with
  | "-"%char :: l' => (true, l')
  | "+"%char :: l' => (false, l')
  | _ => (false, l)
  end.

(** The exponent part of a number: nothing, or [e] or [E], a sign and
    digits. *)
Definition exponent (l : list ascii) : option Z :=
  match l with
  | [] => Some 0%Z
  | c :: l' =>
      if Ascii.eqb (lower c) "e"
      then
        let '(negative, l'') := take_sign l' in
        match digits l'' 0 0 with
        | (_, 0, _) => None
        | (n, _, []) => Some (if negative then - n else n)%Z
        | (_, _, _ :: _) => None
        end
      else None
  end.

(** [float(s)] for a text, as Python 2.7 reads it: blanks around, a sign,
    then [inf], [infinity], [nan] in any case, or decimal digits with an
    optional point and exponent.  A negative zero is not told from
    zero. *)
Definition float_of_text (s : string) : result float :=
  let '(negative, l) := take_sign (strip_chars (list_ascii_of_string s)) in
  let word := string_of_list_ascii (map lower l) in
  if String.eqb word "inf" || String.eqb word "infinity"
  then Ok (Inf negative)
  else if String.eqb word "nan" then Ok NaN
  else
    let '(int_part, int_count, l1) := digits l 0 0 in
    let '(frac_part, frac_count, l2) :=
      match l1 with
      | "."%char :: l1' => digits l1' int_part 0
      | _ => (int_part, 0, l1)
      end in
    if (int_count + frac_count =? 0)%nat then Raise ValueError
    else
      match exponent l2 with
      | None => Raise ValueError
      | Some e =>
          let mant := if negative then (- frac_part)%Z else frac_part in
          let e10 := (e - Z.of_nat frac_count)%Z in
          Ok (binary64
                (if (0 <=? e10)%Z
                 then inject_Z (mant * 10 ^ e10)
                 else Qmake mant (Z.to_pos (10 ^ (- e10)))))
      end.

(** The float a scalar converts to, as [float(v)] and the assignment to
    an item of a float array do. *)
Definition scalar_float (v : scalar) : result float :=
  match v with
  | SInt z => float_of_int z
  | SFloat x => Ok x
  | SStr s => float_of_text s
  end.

(** [float(o)] *)
Definition py_float (o : pyobj) : result float :=
  match o with
  | PyNone => Raise TypeError
  | PyScalar v => scalar_float v
  | PyArray (Arr0 x) => Ok x
  | PyArray (Arr1 [x]) => Ok x
  | PyArray _ => Raise TypeError
  end.

(** [str(n)] for a non-negative integer. *)
Definition py_str (n : nat) : string :=
  NilEmpty.string_of_uint (Nat.to_uint n).

(** What iterating over an array yields: the numbers of a rank-1 array,
    sub-arrays for a higher rank. *)
Inductive item :=
| Elem (x : float)
| SubArray.

Definition py_iter (a : ndarray) : result (list item) :=
  match a with
  | Arr0 _ => Raise TypeError
  | Arr1 xs => Ok (map Elem xs)
  | ArrN d0 _ _ _ => Ok (repeat SubArray d0)
  end.

(** [a[0]] *)
Definition py_item0 (a : ndarray) : result item :=
  match a with
  | Arr0 _ => Raise IndexError
  | Arr1 [] => Raise IndexError
  | Arr1 (x :: _) => Ok (Elem x)
  | ArrN 0 _ _ _ => Raise IndexError
  | ArrN (S _) _ _ _ => Ok SubArray
  end.

(** [zip(a, b, c)] of Python 2: as long as the shortest argument. *)
Definition zip3 {A B C} (a : list A) (b : list B) (c : list C)
  : list (A * B * C) :=
  combine (combine a b) c.

(** A loop that appends [f x] to a list for every [x], left at the first
    exception. *)
Fixpoint collect {A B} (f : A -> result B) (l : list A) : result (list B) :=
  match l with
  | [] => Ok []
  | x :: l' =>
      y <- f x ;;
      ys <- collect f l' ;;
      Ok (y :: ys)
  end.

(** ** FITS headers (astropy.io.fits.Header)

    A header is its list of cards.  Keywords are stored upper-cased by
    astropy, and every keyword the code uses is upper case already, so
    keywords are compared as they are.  The blank padding cards astropy
    keeps at the end of a header read from a file are not represented. *)

Record Card := mkCard { keyword : string; value : scalar; comment : string }.

Definition Header := list Card.

Definition has_keyword (k : string) (c : Card) : bool :=
  String.eqb (keyword c) k.

(** Keywords that may occur any number of times. *)
Definition is_commentary (k : string) : bool :=
  String.eqb k "" || String.eqb k "COMMENT" || String.eqb k "HISTORY"
  || String.eqb k "END".

(** [k in head] *)
Definition Header_contains (k : string) (h : Header) : bool :=
  existsb (has_keyword k) h.

(** The values a card takes: a float must be finite and a text made of
    printable ASCII characters (blank to tilde). *)
Definition is_printable (c : ascii) : bool :=
  let n := nat_of_ascii c in
  (32 <=? n) && (n <=? 126).

Definition card_accepts (v : scalar) : bool :=
  match v with
  | SInt _ => true
  | SFloat x => is_finite x
  | SStr s => forallb is_printable (list_ascii_of_string s)
  end.

(** The value a card gives back: a text without its trailing blanks. *)
Definition card_reads (v : scalar) : scalar :=
  match v with
  | SStr s =>
      SStr (string_of_list_ascii (rstrip_chars (list_ascii_of_string s)))
  | _ => v
  end.

(** [head[k]] for a keyword that is not a commentary one. *)
Definition Header_getitem (k : string) (h : Header) : result scalar :=
  match find (has_keyword k) h with
  | Some c => Ok (card_reads (value c))
  | None => Raise (KeyError k)
  end.

(** The first card of keyword [k] takes the new value, and the new
    comment when one is given. *)
Fixpoint Header_update (k : string) (v : scalar) (c : option string)
    (h : Header) : Header :=
  match h with
  | [] => []
  | x :: t =>
      if has_keyword k x
      then mkCard (keyword x) v
             (match c with Some c' => c' | None => comment x end) :: t
      else x :: Header_update k v c t
  end.

(** [head.append(card)]: a new card goes before the commentary cards
    that end the header. *)
Fixpoint Header_append (card : Card) (h : Header) : Header :=
  match h with
  | [] => [card]
  | x :: t =>
      if forallb (fun c => is_commentary (keyword c)) h
      then card :: h
      else x :: Header_append card t
  end.

(** [head[k] = (v, c)] and [head[k] = v] for a keyword that is not a
    commentary one. *)
Definition Header_setitem (k : string) (v : scalar) (c : option string)
    (h : Header) : Header :=
  if Header_contains k h
  then Header_update k v c h
  else Header_append
         (mkCard k v (match c with Some c' => c' | None => "" end)) h.

(** A card put after the last card of keyword [k], which [h] has. *)
Fixpoint insert_after_last (k : string) (card : Card) (h : Header)
    : Header :=
  match h with
  | [] => [card]
  | x :: t =>
      if Header_contains k t
      then x :: insert_after_last k card t
      else x :: card :: t
  end.

(** [head[k] = text] for a commentary keyword, and [head.add_blank(text)]
    with [k] empty: one more card, after the last of its keyword, or at
    the bottom when it is the first. *)
Definition Header_add_commentary (k : string) (text : string)
    (h : Header) : Header :=
  let card := mkCard k (SStr text) "" in
  if Header_contains k h then insert_after_last k card h
  else h ++ [card].

Definition Header_add_blank (text : string) (h : Header) : Header :=
  Header_add_commentary "" text h.

(** The header being filled by a method is its state.  A value that a
    card does not take is refused with a ValueError. *)
Definition setitem (k : string) (v : scalar) (c : option string)
    : M Header unit :=
  fun h =>
    if card_accepts v then (Ok tt, Header_setitem k v c h)
    else (Raise ValueError, h).

(** A card's value must be a scalar: an array is refused. *)
Definition setitem_from (k : string) (i : item) (c : string)
    : M Header unit :=
  match i with
  | Elem x => setitem k (SFloat x) (Some c)
  | SubArray => raise ValueError
  end.

(** astropy.io.fits.ImageHDU *)
Record HDU := mkHDU { hdu_data : pyobj; hdu_header : Header }.

(** [data.ndim] *)
Definition py_ndim (o : pyobj) : result nat :=
  match o with
  | PyArray a => Ok (ndim a)
  | _ => Raise AttributeError
  end.

(** [np.empty(n)]: the length of the new array. *)
Definition empty_length (n : scalar) : result nat :=
  match n with
  | SInt z => if (z <? 0)%Z then Raise ValueError else Ok (Z.to_nat z)
  | _ => Raise TypeError
  end.

Definition is_None {A} (o : option A) : bool :=
  match o with
  | None => true
  | Some _ => false
  end.

(** ** class Image *)

Module Image.

(** An instance whose construction succeeded.  The class never looks at
    [vxy], nor at a [vz] that is not [None]: they are stored as given,
    and it is [toHDU] that finds out whether a card takes them. *)
Record t := mk {
  data : ndarray;
  vxy : scalar;
  vz : option scalar;
  wave : ndarray;
  gamma : ndarray;
  scale : option ndarray
}.

(** The attributes of the instance under construction: [None] for an
    attribute that is not set yet. *)
Record Attrs := mkAttrs {
  a_data : option ndarray;
  a_vxy : option scalar;
  a_vz : option (option scalar);
  a_wave : option ndarray;
  a_gamma : option ndarray;
  a_scale : option (option ndarray)
}.

Definition blank : Attrs := mkAttrs None None None None None None.

Definition set_data (d : ndarray) : M Attrs unit :=
  fun a => (Ok tt, mkAttrs (Some d) (a_vxy a) (a_vz a) (a_wave a)
                     (a_gamma a) (a_scale a)).
Definition set_vxy (v : scalar) : M Attrs unit :=
  fun a => (Ok tt, mkAttrs (a_data a) (Some v) (a_vz a) (a_wave a)
                     (a_gamma a) (a_scale a)).
Definition set_vz (v : option scalar) : M Attrs unit :=
  fun a => (Ok tt, mkAttrs (a_data a) (a_vxy a) (Some v) (a_wave a)
                     (a_gamma a) (a_scale a)).
Definition set_wave (w : ndarray) : M Attrs unit :=
  fun a => (Ok tt, mkAttrs (a_data a) (a_vxy a) (a_vz a) (Some w)
                     (a_gamma a) (a_scale a)).
Definition set_gamma (g : ndarray) : M Attrs unit :=
  fun a => (Ok tt, mkAttrs (a_data a) (a_vxy a) (a_vz a) (a_wave a)
                     (Some g) (a_scale a)).
Definition set_scale (s : option ndarray) : M Attrs unit :=
  fun a => (Ok tt, mkAttrs (a_data a) (a_vxy a) (a_vz a) (a_wave a)
                     (a_gamma a) (Some s)).

Definition getattr {A} (f : Attrs -> option A) : M Attrs A :=
  fun a =>
    match f a with
    | Some x => (Ok x, a)
    | None => (Raise AttributeError, a)
    end.

(** [Image.__init__(self, data, vxy, wave, gamma, scale, vz)] *)
Definition init (data_ : pyobj) (vxy_ : scalar) (wave_ gamma_ scale_ : pyobj)
    (vz_ : option scalar) : M Attrs unit :=
  d <~ match data_ with
       | PyArray d =>
           raise_if ((ndim d <? 2) || (3 <? ndim d))
             (DopplerError
                "Image.__init__: data must be a 2D or 3D numpy array") ;;
           ret d
       | _ =>
           raise (DopplerError
                    "Image.__init__: data must be a 2D or 3D numpy array")
       end ;;
  raise_if ((ndim d =? 3) && is_None vz_)
    (DopplerError "Image.__init__: vz must be defined for 3D data") ;;
  set_data d ;;
  set_vxy vxy_ ;;
  set_vz vz_ ;;
  match wave_ with
  | PyArray w =>
      raise_if (1 <? ndim w)
        (DopplerError
           "Image.__init__: wave can at most be one dimensional") ;;
      set_wave w
  | _ =>
      x <~ lift (py_float wave_) ;;
      set_wave (Arr1 [x])
  end ;;
  match gamma_ with
  | PyArray g =>
      raise_if (1 <? ndim g)
        (DopplerError
           "Image.__init__: gamma can at most be one dimensional") ;;
      set_gamma g
  | _ =>
      x <~ lift (py_float gamma_) ;;
      set_gamma (Arr1 [x])
  end ;;
  g <~ getattr a_gamma ;;
  lg <~ lift (py_len g) ;;
  w <~ getattr a_wave ;;
  lw <~ lift (py_len w) ;;
  raise_if (negb (lg =? lw))
    (DopplerError "Image.__init__: gamma and wave must match in size") ;;
  match scale_ with
  | PyArray s =>
      raise_if (1 <? ndim s)
        (DopplerError
           "Image.__init__: scale can at most be one dimensional") ;;
      set_scale (Some s) ;;
      ls <~ lift (py_len s) ;;
      w <~ getattr a_wave ;;
      lw <~ lift (py_len w) ;;
      raise_if (negb (ls =? lw))
        (DopplerError "Image.__init__: scale and wave must match in size")
  | _ =>
      w <~ getattr a_wave ;;
      lw <~ lift (py_len w) ;;
      if 1 <? lw
      then raise (DopplerError
                    "Image.__init__: scale must be an array in wave is")
      else set_scale None
  end.

(** The instance, once every attribute is set. *)
Definition instance (a : Attrs) : result t :=
  match a_data a, a_vxy a, a_vz a, a_wave a, a_gamma a, a_scale a with
  | Some d, Some x, Some z, Some w, Some g, Some s => Ok (mk d x z w g s)
  | _, _, _, _, _, _ => Raise AttributeError
  end.

(** The call [Image(data, vxy, wave, gamma, scale, vz)]: a new object
    is initialised, and returned unless [__init__] raised. *)
Definition new (data_ : pyobj) (vxy_ : scalar) (wave_ gamma_ scale_ : pyobj)
    (vz_ : option scalar) : result t :=
  match init data_ vxy_ wave_ gamma_ scale_ vz_ blank with
  | (Ok _, a) => instance a
  | (Raise e, _) => Raise e
  end.

(** The loop of [toHDU] over [zip(self.wave, self.gamma, self.scale)],
    [n] counting from 1. *)
Fixpoint toHDU_lines (n : nat) (l : list (item * item * item))
    : M Header unit :=
  match l with
  | [] => ret tt
  | (w, g, s) :: l' =>
      setitem_from (String.append "WAVE" (py_str n)) w
        "Central wavelength" ;;
      setitem_from (String.append "GAMMA" (py_str n)) g
        "Systemic velocity, km/s" ;;
      setitem_from (String.append "SCALE" (py_str n)) s "Scaling factor" ;;
      toHDU_lines (S n) l'
  end.

(** The header [toHDU] builds.  A [vz] of [None] is stored by astropy
    as an empty value. *)
Definition toHDU_head (self : t) : M Header unit :=
  setitem "TYPE" (SStr "doppler.Image") None ;;
  setitem "VXY" (vxy self) (Some "Vx-Vy pixel size, km/s") ;;
  (if ndim (data self) =? 3
   then setitem "VZ"
          (match vz self with Some v => v | None => SStr "" end)
          (Some "Vz pixel size, km/s")
   else ret tt) ;;
  nw <~ lift (py_len (wave self)) ;;
  setitem "NWAVE" (SInt (Z.of_nat nw)) (Some "Number of wavelengths") ;;
  if 1 <? nw
  then
    ws <~ lift (py_iter (wave self)) ;;
    gs <~ lift (py_iter (gamma self)) ;;
    ss <~ lift (match scale self with
                | Some s => py_iter s
                | None => Raise TypeError
                end) ;;
    toHDU_lines 1 (zip3 ws gs ss)
  else
    w <~ lift (py_item0 (wave self)) ;;
    setitem_from "WAVE1" w "Central wavelength" ;;
    g <~ lift (py_item0 (gamma self)) ;;
    setitem_from "GAMMA1" g "Systemic velocity, km/s".

(** [Image.toHDU(self)].  The cards that [fits.ImageHDU] adds to the
    header to describe the data array (XTENSION, BITPIX, NAXIS and the
    like) are not represented: the code neither writes nor reads them. *)
Definition toHDU (self : t) : result HDU :=
  match toHDU_head self [] with
  | (Ok _, head) => Ok (mkHDU (PyArray (data self)) head)
  | (Raise e, _) => Raise e
  end.

(** What [head[k]] gives once assigned to an item of a float array. *)
Definition read_float (k : string) (head : Header) : result float :=
  v <- Header_getitem k head ;;
  scalar_float v.

(** The loop of [fromHDU] over [xrange(nwave)], from index [n] with
    [count] indices to go: the items assigned to [wave], [gamma] and,
    when [nwave > 1], [scale]. *)
Fixpoint fromHDU_lines (with_scale : bool) (n count : nat) (head : Header)
    : result (list float * list float * list float) :=
  match count with
  | 0 => Ok ([], [], [])
  | S count' =>
      w <- read_float (String.append "WAVE" (py_str (n + 1))) head ;;
      g <- read_float (String.append "GAMMA" (py_str (n + 1))) head ;;
      s <- (if with_scale
            then
              x <- read_float (String.append "SCALE" (py_str (n + 1))) head ;;
              Ok [x]
            else Ok []) ;;
      r <- fromHDU_lines with_scale (S n) count' head ;;
      let '(ws, gs, ss) := r in
      Ok (w :: ws, g :: gs, s ++ ss)
  end.

(** [Image.fromHDU(cls, hdu)] *)
Definition fromHDU (hdu : HDU) : result t :=
  let data_ := hdu_data hdu in
  let head := hdu_header hdu in
  if negb (Header_contains "VXY" head)
     || negb (Header_contains "NWAVE" head)
     || negb (Header_contains "WAVE1" head)
     || negb (Header_contains "GAMMA1" head)
  then Raise (DopplerError
    "Image.fromHDU: one or more of VXY, NWAVE, WAVE1, GAMMA1 not found in HDU")
  else
    vxy_ <- Header_getitem "VXY" head ;;
    nd <- py_ndim data_ ;;
    vz_ <- (if nd =? 3
            then v <- Header_getitem "VZ" head ;; Ok (Some v)
            else Ok None) ;;
    nwave <- Header_getitem "NWAVE" head ;;
    n <- empty_length nwave ;;
    r <- fromHDU_lines (1 <? n) 0 n head ;;
    let '(ws, gs, ss) := r in
    new data_ vxy_ (PyArray (Arr1 ws)) (PyArray (Arr1 gs))
      (if 1 <? n then PyArray (Arr1 ss) else PyNone) vz_.

End Image.

(** ** The constructor as a function of its arguments

    The checks of [Image.__init__] in the order the code makes them,
    without the object under construction; [new_eq] below shows that the
    call [Image.new] computes exactly this. *)

Definition checked_data (data_ : pyobj) (vz_ : option scalar)
    : result ndarray :=
  match data_ with
  | PyArray d =>
      if (ndim d <? 2) || (3 <? ndim d)
      then Raise (DopplerError
                    "Image.__init__: data must be a 2D or 3D numpy array")
      else if (ndim d =? 3) && is_None vz_
      then Raise (DopplerError
                    "Image.__init__: vz must be defined for 3D data")
      else Ok d
  | _ => Raise (DopplerError
                  "Image.__init__: data must be a 2D or 3D numpy array")
  end.

Definition as_1d (msg : string) (o : pyobj) : result ndarray :=
  match o with
  | PyArray a => if 1 <? ndim a then Raise (DopplerError msg) else Ok a
  | _ => x <- py_float o ;; Ok (Arr1 [x])
  end.

Definition checked_scale (scale_ : pyobj) (lw : nat)
    : result (option ndarray) :=
  match scale_ with
  | PyArray s =>
      if 1 <? ndim s
      then Raise (DopplerError
                    "Image.__init__: scale can at most be one dimensional")
      else
        ls <- py_len s ;;
        if negb (ls =? lw)
        then Raise (DopplerError
                      "Image.__init__: scale and wave must match in size")
        else Ok (Some s)
  | _ =>
      if 1 <? lw
      then Raise (DopplerError
                    "Image.__init__: scale must be an array in wave is")
      else Ok None
  end.

Definition new_direct (data_ : pyobj) (vxy_ : scalar)
    (wave_ gamma_ scale_ : pyobj) (vz_ : option scalar) : result Image.t :=
  d <- checked_data data_ vz_ ;;
  w <- as_1d "Image.__init__: wave can at most be one dimensional" wave_ ;;
  g <- as_1d "Image.__init__: gamma can at most be one dimensional" gamma_ ;;
  lg <- py_len g ;;
  lw <- py_len w ;;
  if negb (lg =? lw)
  then Raise (DopplerError "Image.__init__: gamma and wave must match in size")
  else
    s <- checked_scale scale_ lw ;;
    Ok (Image.mk d vxy_ vz_ w g s).

(** ** Objects shared with the caller

    [Map.__init__] receives its header by reference.  The store holds the
    objects allocated so far; a reference is a position in it. *)

Inductive object :=
| OHeader (h : Header)
| OOther.

Definition ref := nat.
Definition store := list object.

(** A new object, at the next free position. *)
Definition alloc (o : object) : M store ref :=
  fun st => (Ok (List.length st), st ++ [o]).

Fixpoint store_update (st : store) (r : ref) (f : object -> object)
    : store :=
  match st, r with
  | [], _ => []
  | o :: st', 0 => f o :: st'
  | o :: st', S r' => o :: store_update st' r' f
  end.

(** A method of the header at [r] that changes it in place. *)
Definition mutate (r : ref) (f : Header -> Header) : M store unit :=
  fun st =>
    (Ok tt,
     store_update st r
       (fun o => match o with OHeader h => OHeader (f h) | OOther => OOther end)).

(** [isinstance(head, fits.Header)], with the cards of the header. *)
Definition as_Header (st : store) (r : ref) : option Header :=
  match nth_error st r with
  | Some (OHeader h) => Some h
  | _ => None
  end.

(** ** class Map *)

Module Map.

(** The [data] attribute is the argument itself.  It is given here by
    what iterating over it yields once [__init__] has returned, for as
    long as the caller leaves the container as it is. *)
Record t := mk { head : ref; data : list Image.t }.

(** The elements of the [data] argument, and the argument itself: a
    list or another container that yields its elements every time it is
    iterated (a tuple, a dict, a string), an iterator or generator, whose
    elements can be had once, one Image, or something else that cannot
    be iterated.  An iterable is taken to end and to raise nothing while
    it is iterated. *)
Inductive element :=
| AnImage (i : Image.t)
| NotAnImage.

Inductive data_arg :=
| AList (l : list element)
| AnIterator (l : list element)
| OneImage (i : Image.t)
| NotIterable.

(** The loop over [enumerate(data)], from index [i]. *)
Fixpoint check_elements (i : nat) (l : list element)
    : result (list Image.t) :=
  match l with
  | [] => Ok []
  | AnImage im :: l' =>
      r <- check_elements (S i) l' ;;
      Ok (im :: r)
  | NotAnImage :: _ =>
      Raise (DopplerError
               (String.append "Map.__init__: element "
                  (String.append (py_str i) " of map is not an Image.")))
  end.

(** The [try] block: iterating over something that is not iterable
    raises the TypeError that the [except] clause handles.  The
    argument itself is stored: an iterator that the loop has used up
    yields nothing afterwards. *)
Definition check_data (d : data_arg) : result (list Image.t) :=
  match d with
  | AList l => check_elements 0 l
  | AnIterator l =>
      _ <- check_elements 0 l ;;
      Ok []
  | OneImage im => Ok [im]
  | NotIterable =>
      Raise (DopplerError
               "Map.__init__: data must be an Image or a list of Images")
  end.

(** [Map.__init__(self, head, data)], returning the new instance. *)
Definition init (head_ : ref) (data_ : data_arg) : M store t :=
  h <~ (fun st =>
          match as_Header st head_ with
          | Some h => (Ok h, st)
          | None =>
              (Raise (DopplerError
                        "Map.__init__: head must be a fits.Header object"),
               st)
          end) ;;
  self_head <~ alloc (OHeader h) ;;
  mutate self_head (Header_add_blank "............................") ;;
  mutate self_head
    (Header_add_commentary "COMMENT" "This file contains Doppler images.") ;;
  mutate self_head
    (Header_add_commentary "COMMENT"
       "Images can be 2D or 3D; VXY and VZ are the X,Y and Z velocity scales") ;;
  mutate self_head
    (Header_add_commentary "HISTORY" "Created from a doppler.Map object") ;;
  images <~ lift (check_data data_) ;;
  ret (mk self_head images).

(** [Map.rfits(cls, fname)], from the HDU list that [fits.open(fname)]
    returned: reading the file is astropy's.  The header of the primary
    HDU is an object of its own, and the new Map copies it. *)
Definition rfits (fname : string) (hdul : list HDU) : M store t :=
  if List.length hdul <? 2
  then raise (DopplerError
                (String.append "Map.rfits: "
                   (String.append fname " had too few HDUs")))
  else
    match hdul with
    | [] => raise IndexError
    | primary :: extensions =>
        head_ <~ alloc (OHeader (hdu_header primary)) ;;
        data_ <~ lift (collect Image.fromHDU extensions) ;;
        init head_ (AList (map AnImage data_))
    end.

(** [Map.wfits(self, fname)], up to the HDU list it hands to
    [HDUList.writeto]: writing the file is astropy's.  The primary HDU
    has the cards of the Map's header and no data; [fits.PrimaryHDU]
    refuses a header that is not a Header object. *)
Definition wfits (self : t) : M store (list HDU) :=
  h <~ (fun st =>
          match as_Header st (head self) with
          | Some h => (Ok h, st)
          | None => (Raise ValueError, st)
          end) ;;
  hdus <~ lift (collect Image.toHDU (data self)) ;;
  ret (mkHDU PyNone h :: hdus).

(** The four provenance cards. *)
Definition provenance : list Card :=
  [ mkCard "" (SStr "............................") "";
    mkCard "COMMENT" (SStr "This file contains Doppler images.") "";
    mkCard "COMMENT"
      (SStr "Images can be 2D or 3D; VXY and VZ are the X,Y and Z velocity scales")
      "";
    mkCard "HISTORY" (SStr "Created from a doppler.Map object") "" ].

End Map.

(** ** scripts/memit.py

    argparse splits the command line into positional arguments and
    options with their values; the script is modelled from that point.
    [parse_args] either returns the namespace or leaves the program
    ([SystemExit]: a usage error, or the help text). *)

Inductive argtype := AsStr | AsInt | AsFloat.

Inductive argval :=
| VStr (s : string)
| VInt (z : Z)
| VFloat (x : float).

Record Positional := mkPositional { p_dest : string; p_type : argtype }.

Record Optional := mkOptional {
  o_flag : string;
  o_dest : string;
  o_type : argtype;
  o_default : argval
}.

Record ArgumentParser := mkParser {
  positionals : list Positional;
  optionals : list Optional
}.

Inductive token :=
| Arg (s : string)
| Opt (flag value : string)
| Help.

Definition Namespace := list (string * argval).

Definition ns_set (k : string) (v : argval) (ns : Namespace) : Namespace :=
  (k, v) :: ns.

Definition ns_get (k : string) (ns : Namespace) : option argval :=
  match find (fun kv => String.eqb (fst kv) k) ns with
  | Some kv => Some (snd kv)
  | None => None
  end.

Inductive outcome (A : Type) :=
| Returned (a : A)
| SystemExit.
Arguments Returned {A} a.
Arguments SystemExit {A}.

Definition obind {A B} (o : outcome A) (k : A -> outcome B) : outcome B :=
  match o with
  | Returned a => k a
  | SystemExit => SystemExit
  end.

Notation "x <-- o ;; k" := (obind o (fun x => k))
  (at level 61, o at next level, right associativity).

(** The parser of the script: lines 14 to 27.  The defaults are the
    floats that the literals [0.2] and [1.e-4] denote. *)
Definition parser : ArgumentParser :=
  mkParser
    [ mkPositional "imap" AsStr;
      mkPositional "data" AsStr;
      mkPositional "niter" AsInt;
      mkPositional "caim" AsFloat;
      mkPositional "omap" AsStr ]
    [ mkOptional "-r" "rmax" AsFloat (VFloat (binary64 (2 # 10)));
      mkOptional "-t" "tlim" AsFloat (VFloat (binary64 (1 # 10000))) ].

Section Memit.

(** [int(s)] and [float(s)] on the text of an argument. *)
Variable int_of_str : string -> option Z.
Variable float_of_str : string -> option float.

(** What the script calls that is not among the sources: [doppler.afits]
    on a value, [fits.open] of astropy on a file name, the class
    [doppler.Data] and its [rfits]. *)
Variable afits : argval -> result string.
Variable fits_open : string -> result (list HDU).
Variable Data : Type.
Variable Data_rfits : string -> result Data.

(** The [type=] conversion of an argument. *)
Definition convert (ty : argtype) (s : string) : outcome argval :=
  match ty with
  | AsStr => Returned (VStr s)
  | AsInt =>
      match int_of_str s with
      | Some z => Returned (VInt z)
      | None => SystemExit
      end
  | AsFloat =>
      match float_of_str s with
      | Some x => Returned (VFloat x)
      | None => SystemExit
      end
  end.

Definition find_option (p : ArgumentParser) (flag : string)
    : option Optional :=
  find (fun o => String.eqb (o_flag o) flag) (optionals p).

(** The arguments from left to right; [todo] are the positionals that
    still have no value. *)
Fixpoint parse_tokens (p : ArgumentParser) (todo : list Positional)
    (ns : Namespace) (tokens : list token) : outcome Namespace :=
  match tokens with
  | [] =>
      match todo with
      | [] => Returned ns
      | _ :: _ => SystemExit
      end
  | Help :: _ => SystemExit
  | Arg s :: rest =>
      match todo with
      | [] => SystemExit
      | a :: todo' =>
          v <-- convert (p_type a) s ;;
          parse_tokens p todo' (ns_set (p_dest a) v ns) rest
      end
  | Opt flag s :: rest =>
      match find_option p flag with
      | None => SystemExit
      | Some o =>
          v <-- convert (o_type o) s ;;
          parse_tokens p todo (ns_set (o_dest o) v ns) rest
      end
  end.

(** Every option starts from its default. *)
Definition defaults (p : ArgumentParser) : Namespace :=
  map (fun o => (o_dest o, o_default o)) (optionals p).

Definition parse_args (p : ArgumentParser) (tokens : list token)
    : outcome Namespace :=
  parse_tokens p (positionals p) (defaults p) tokens.

(** [args.k] *)
Definition attr (k : string) (ns : Namespace) : result argval :=
  match ns_get k ns with
  | Some v => Ok v
  | None => Raise AttributeError
  end.

(** What [doppler.memit] is called with: the Map and the Data read from
    the files, and the four numbers. *)
Record MemitCall := mkCall {
  call_map : Map.t;
  call_data : Data;
  call_niter : argval;
  call_caim : argval;
  call_tlim : argval;
  call_rmax : argval
}.

(** Lines 33 and 34: the map and the data are read from the files. *)
Definition load (args : Namespace) : M store (Map.t * Data) :=
  imap <~ lift (attr "imap" args) ;;
  fname <~ lift (afits imap) ;;
  hdul <~ lift (fits_open fname) ;;
  dmap <~ Map.rfits fname hdul ;;
  dname <~ lift (attr "data" args) ;;
  fname' <~ lift (afits dname) ;;
  data <~ lift (Data_rfits fname') ;;
  ret (dmap, data).

(** Line 37: the arguments of the call, from left to right. *)
Definition memit_call (args : Namespace) (dmap : Map.t) (data : Data)
    : result MemitCall :=
  niter <- attr "niter" args ;;
  caim <- attr "caim" args ;;
  tlim <- attr "tlim" args ;;
  rmax <- attr "rmax" args ;;
  Ok (mkCall dmap data niter caim tlim rmax).

(** The script up to its call of [doppler.memit], from the objects in
    [st]: it leaves through [parse_args], or it raises or reaches the
    call. *)
Definition memit_script (tokens : list token) (st : store)
    : outcome (result MemitCall * store) :=
  args <-- parse_args parser tokens ;;
  Returned ((x <~ load args ;;
             lift (memit_call args (fst x) (snd x))) st).

(** The positional arguments of a command line, and the value the last
    occurrence of an option gives. *)
Fixpoint args_of (tokens : list token) : list string :=
  match tokens with
  | [] => []
  | Arg s :: rest => s :: args_of rest
  | _ :: rest => args_of rest
  end.

Fixpoint last_opt (flag : string) (tokens : list token) : option string :=
  match tokens with
  | [] => None
  | Opt f s :: rest =>
      match last_opt flag rest with
      | Some s' => Some s'
      | None => if String.eqb f flag then Some s else None
      end
  | _ :: rest => last_opt flag rest
  end.

End Memit.

Arguments mkCall {Data}.
Arguments call_map {Data}.
Arguments call_data {Data}.
Arguments call_niter {Data}.
Arguments call_caim {Data}.
Arguments call_tlim {Data}.
Arguments call_rmax {Data}.

(** ** Projection

    [project] is part of the native extension [trm/doppler/doppler.cc],
    which is not among the sources. *)

(** The numbers an array holds, in buffer order. *)
Definition items (a : ndarray) : list float :=
  match a with
  | Arr0 x => [x]
  | Arr1 xs => xs
  | ArrN _ _ _ buf => buf
  end.


Section Projection.

(** Modelled from the spec: the spectrum that section 4.1 accumulates
    for an image and a phase, from the orbit kinematics, the scale
    factors and the instrumental broadening, none of which the spec puts
    in numbers. *)
Variable accumulate : Image.t -> float -> list float.



End Projection.

(** ** The structural conditions of the specification *)

(** The number of entries an argument stands for: one for a scalar, the
    length of an array that has one. *)
Definition entries (o : pyobj) : option nat :=
  match o with
  | PyNone => None
  | PyScalar _ => Some 1
  | PyArray (Arr0 _) => None
  | PyArray (Arr1 xs) => Some (List.length xs)
  | PyArray (ArrN d0 _ _ _) => Some d0
  end.

Definition is_array (o : pyobj) : bool :=
  match o with
  | PyArray _ => true
  | _ => false
  end.

Definition dims_over (n : nat) (o : pyobj) : bool :=
  match o with
  | PyArray a => n <? ndim a
  | _ => false
  end.

Definition is_2D_or_3D (o : pyobj) : bool :=
  match o with
  | PyArray a => (ndim a =? 2) || (ndim a =? 3)
  | _ => false
  end.

Definition is_3D (o : pyobj) : bool :=
  match o with
  | PyArray a => ndim a =? 3
  | _ => false
  end.

(** Follows the spec's words: the input is structurally malformed. *)
Definition malformed (data_ : pyobj) (wave_ gamma_ scale_ : pyobj)
    (vz_ : option scalar) : Prop :=
  is_2D_or_3D data_ = false
  \/ (is_3D data_ = true /\ vz_ = None)
  \/ dims_over 1 wave_ = true
  \/ dims_over 1 gamma_ = true
  \/ dims_over 1 scale_ = true
  \/ entries gamma_ <> entries wave_
  \/ (is_array scale_ = true /\ entries scale_ <> entries wave_)
  \/ (exists n, entries wave_ = Some n /\ 1 < n /\ is_array scale_ = false).

(** An argument of the documented kind: a number, or an array that has
    a length. *)
Definition number_or_sized (o : pyobj) : bool :=
  match o with
  | PyNone => false
  | PyScalar v => is_Ok (scalar_float v)
  | PyArray a => is_Ok (py_len a)
  end.

(** What [scale] may be: anything but an array without a length. *)
Definition none_or_sized (o : pyobj) : bool :=
  match o with
  | PyArray a => is_Ok (py_len a)
  | _ => true
  end.



(** ** Definitions used by the statements below *)

(** Two data arrays, 2 by 2 and 2 by 2 by 2. *)
Definition data2D : ndarray := ArrN 2 2 [] (floats [1; 2; 3; 4]%Q).
Definition data3D : ndarray :=
  ArrN 2 2 [2] (floats [1; 2; 3; 4; 5; 6; 7; 8]%Q).

(** A keyword other than the ones the loop of [toHDU] writes from line
    [n] on. *)
Definition not_line_from (n : nat) (k : string) : Prop :=
  forall m, n <= m ->
    k <> String.append "WAVE" (py_str m)
    /\ k <> String.append "GAMMA" (py_str m)
    /\ k <> String.append "SCALE" (py_str m).

(** The cards [toHDU] writes before the lines.  The cards astropy adds
    to describe the data array have other keywords and are left out. *)
Definition first_cards (d : ndarray) (vxy_ : scalar) (vz_ : option scalar)
    (n : nat) : Header :=
  [ mkCard "TYPE" (SStr "doppler.Image") "";
    mkCard "VXY" vxy_ "Vx-Vy pixel size, km/s" ]
  ++ (if ndim d =? 3
      then [ mkCard "VZ" (match vz_ with Some v => v | None => SStr "" end)
               "Vz pixel size, km/s" ]
      else [])
  ++ [ mkCard "NWAVE" (SInt (Z.of_nat n)) "Number of wavelengths" ].

(** An Image that some call of the constructor returned. *)
Definition constructed (img : Image.t) : Prop :=
  exists data_ vxy_ wave_ gamma_ scale_ vz_,
    Image.new data_ vxy_ wave_ gamma_ scale_ vz_ = Ok img.

(** The number of lines of an Image, 0 when [wave] has no length. *)
Definition nlines (img : Image.t) : nat :=
  match py_len (Image.wave img) with
  | Ok n => n
  | Raise _ => 0
  end.

(** What [toHDU] keeps of an Image: [vz] only with 3D data, the scale
    factors only with more than one line. *)
Definition as_written (img : Image.t) : Image.t :=
  Image.mk (Image.data img) (Image.vxy img)
    (if ndim (Image.data img) =? 3 then Image.vz img else None)
    (Image.wave img) (Image.gamma img)
    (if 1 <? nlines img then Image.scale img else None).

(** An attribute as an argument of the constructor. *)
Definition optional_array (s : option ndarray) : pyobj :=
  match s with
  | Some a => PyArray a
  | None => PyNone
  end.

(** The position of the first element of [l] that is not an Image. *)
Fixpoint first_not_image (l : list Map.element) : option nat :=
  match l with
  | [] => None
  | Map.AnImage _ :: l' =>
      match first_not_image l' with
      | Some i => Some (S i)
      | None => None
      end
  | Map.NotAnImage :: _ => Some 0
  end.

(** The Images of a list of elements. *)
Fixpoint images_of (l : list Map.element) : list Image.t :=
  match l with
  | [] => []
  | Map.AnImage im :: l' => im :: images_of l'
  | Map.NotAnImage :: l' => images_of l'
  end.

(** The cards of a header once [Map.__init__] has added its four. *)
Definition with_provenance (h : Header) : Header :=
  Header_add_commentary "HISTORY" "Created from a doppler.Map object"
    (Header_add_commentary "COMMENT"
       "Images can be 2D or 3D; VXY and VZ are the X,Y and Z velocity scales"
       (Header_add_commentary "COMMENT" "This file contains Doppler images."
          (Header_add_blank "............................" h))).

(** What the [data] argument of [Map.__init__] must be. *)
Definition images_only (d : Map.data_arg) : Prop :=
  match d with
  | Map.AList l => first_not_image l = None
  | Map.AnIterator l => first_not_image l = None
  | Map.OneImage _ => True
  | Map.NotIterable => False
  end.

(** The value of an option of the script: the conversion of the last
    value given for the flag, or the default. *)
Definition option_value (float_of_str : string -> option float)
    (flag : string) (default : argval) (tokens : list token) : argval :=
  match last_opt flag tokens with
  | Some s =>
      match float_of_str s with
      | Some x => VFloat x
      | None => default
      end
  | None => default
  end.

(** A value that a card takes and gives back as it is: an integer, a
    finite float, or a printable text that does not end in blanks. *)
Definition kept_by_card (v : scalar) : Prop :=
  card_accepts v = true /\ card_reads v = v.

(** An array whose numbers are all finite. *)
Definition all_finite (a : ndarray) : Prop :=
  Forall (fun x => is_finite x = true) (items a).

(** An Image whose attributes the cards of [toHDU] take and give back:
    [vxy], the [vz] of 3D data, and the numbers of the lines, with the
    scale factors when there is more than one line. *)
Definition storable (img : Image.t) : Prop :=
  kept_by_card (Image.vxy img)
  /\ (ndim (Image.data img) = 3 ->
      forall v, Image.vz img = Some v -> kept_by_card v)
  /\ all_finite (Image.wave img)
  /\ all_finite (Image.gamma img)
  /\ (1 < nlines img ->
      forall s, Image.scale img = Some s -> all_finite s).

(** The exceptions that leave the constructor. *)
Definition constructor_exn (e : exn) : Prop :=
  (exists msg, e = DopplerError msg)
  \/ e = TypeError \/ e = ValueError \/ e = OverflowError.

(** An Image with another [wave] and [gamma]. *)
Definition with_lines (img : Image.t) (w g : ndarray) : Image.t :=
  Image.mk (Image.data img) (Image.vxy img) (Image.vz img) w g
    (Image.scale img).

(** The namespace that holds the two file names. *)
Definition named_files (imap data : string) : Namespace :=
  [ ("imap", VStr imap); ("data", VStr data) ].

(** A command line that the parser of the script accepts: five
    positional arguments, the third an integer and the fourth a float,
    no option but [-r] and [-t], each with a float, and no request for
    help. *)
Definition accepted (int_of_str : string -> option Z)
    (float_of_str : string -> option float) (tokens : list token)
    (imap data sn sc omap : string) (n : Z) (x : float) : Prop :=
  args_of tokens = [imap; data; sn; sc; omap]
  /\ int_of_str sn = Some n
  /\ float_of_str sc = Some x
  /\ (forall f v, In (Opt f v) tokens ->
                  (f = "-r" \/ f = "-t") /\ float_of_str v <> None)
  /\ ~ In Help tokens.

(** The flags of the script and the names they assign. *)
Definition flag_dest (flag dest : string) : Prop :=
  (flag = "-r" /\ dest = "rmax") \/ (flag = "-t" /\ dest = "tlim").

(** For the examples: the conversion of one text to an integer, a
    package whose [afits] adds the extension to a name, a file system
    whose file [in.fits] holds a header and one image and whose other
    files hold a header only, and data files given by their names. *)
Definition sample_int (s : string) : option Z :=
  if String.eqb s "200" then Some 200%Z else None.

Definition sample_afits (v : argval) : result string :=
  match v with
  | VStr s => Ok (String.append s ".fits")
  | _ => Raise TypeError
  end.

Definition sample_image : HDU :=
  mkHDU (PyArray data2D)
    [ mkCard "VXY" (SFloat 40%Q) "";
      mkCard "NWAVE" (SInt 1) "";
      mkCard "WAVE1" (SFloat (937 # 2)%Q) "";
      mkCard "GAMMA1" (SFloat 150%Q) "" ].

Definition sample_open (fname : string) : result (list HDU) :=
  if String.eqb fname "in.fits"
  then Ok [ mkHDU PyNone [ mkCard "OBJECT" (SStr "IP Peg") "" ];
            sample_image ]
  else Ok [ mkHDU PyNone [] ].

Definition sample_Data_rfits (fname : string) : result string := Ok fname.

Definition sample_float (s : string) : option float :=
  match float_of_text s with
  | Ok x => Some x
  | Raise _ => None
  end.

(** * Lemmas *)

(** ** Keywords *)

Lemma py_str_inj m n : py_str m = py_str n -> m = n.
Proof.
  unfold py_str. intros H.
  apply (f_equal NilEmpty.uint_of_string) in H.
  rewrite !NilEmpty.usu in H.
  apply DecimalNat.Unsigned.to_uint_inj. congruence.
Qed.

Lemma append_inj p s s' : String.append p s = String.append p s' -> s = s'.
Proof.
  induction p as [| c p IH]; cbn; intros H; [exact H |].
  injection H as H. auto.
Qed.

Lemma key_inj p m n :
  String.append p (py_str m) = String.append p (py_str n) -> m = n.
Proof. intros H. apply py_str_inj, (append_inj p), H. Qed.

Lemma not_line_from_S n k : not_line_from n k -> not_line_from (S n) k.
Proof. intros H m Hm. apply H. lia. Qed.

Lemma wave_not_line n : not_line_from (S n) (String.append "WAVE" (py_str n)).
Proof.
  intros m Hm. repeat split; intros H;
    [apply key_inj in H; lia | discriminate H | discriminate H].
Qed.

Lemma gamma_not_line n : not_line_from (S n) (String.append "GAMMA" (py_str n)).
Proof.
  intros m Hm. repeat split; intros H;
    [discriminate H | apply key_inj in H; lia | discriminate H].
Qed.

Lemma scale_not_line n : not_line_from (S n) (String.append "SCALE" (py_str n)).
Proof.
  intros m Hm. repeat split; intros H;
    [discriminate H | discriminate H | apply key_inj in H; lia].
Qed.

(** ** Header cards *)

Lemma has_keyword_true k c : has_keyword k c = true <-> keyword c = k.
Proof. apply String.eqb_eq. Qed.

Lemma has_keyword_false k c : has_keyword k c = false <-> keyword c <> k.
Proof. apply String.eqb_neq. Qed.

Lemma contains_find k h :
  Header_contains k h = match find (has_keyword k) h with
                        | Some _ => true
                        | None => false
                        end.
Proof.
  unfold Header_contains.
  induction h as [| x t IH]; cbn; [reflexivity |].
  destruct (has_keyword k x); cbn; auto.
Qed.

Lemma getitem_find k h c :
  find (has_keyword k) h = Some c ->
  Header_getitem k h = Ok (card_reads (value c)).
Proof. unfold Header_getitem. intros ->. reflexivity. Qed.

Lemma find_update_same k v c h :
  Header_contains k h = true ->
  exists card, find (has_keyword k) (Header_update k v c h) = Some card
               /\ value card = v.
Proof.
  induction h as [| x t IH]; cbn; [discriminate |].
  destruct (has_keyword k x) eqn:E; cbn.
  - intros _. unfold has_keyword in *. cbn. rewrite E. eauto.
  - intros H. rewrite E. auto.
Qed.

Lemma find_update_other k k' v c h :
  k' <> k ->
  find (has_keyword k') (Header_update k v c h) = find (has_keyword k') h.
Proof.
  intros Hk. induction h as [| x t IH]; cbn; [reflexivity |].
  destruct (has_keyword k x) eqn:E; cbn.
  - apply has_keyword_true in E.
    assert (Hx : has_keyword k' x = false)
      by (apply has_keyword_false; congruence).
    rewrite Hx. unfold has_keyword at 1. cbn.
    unfold has_keyword in Hx. now rewrite Hx.
  - destruct (has_keyword k' x); auto.
Qed.

Lemma find_append_same card h :
  Header_contains (keyword card) h = false ->
  find (has_keyword (keyword card)) (Header_append card h) = Some card.
Proof.
  induction h as [| x t IH]; cbn [Header_append].
  - intros _. cbn. unfold has_keyword. now rewrite String.eqb_refl.
  - intros H. cbn in H. apply orb_false_iff in H as [Hx Ht].
    destruct (forallb _ (x :: t)).
    + cbn. unfold has_keyword at 1. now rewrite String.eqb_refl.
    + cbn. rewrite Hx. auto.
Qed.

Lemma find_append_other k card h :
  k <> keyword card ->
  find (has_keyword k) (Header_append card h) = find (has_keyword k) h.
Proof.
  intros Hk. induction h as [| x t IH]; cbn [Header_append].
  - cbn. apply not_eq_sym, has_keyword_false in Hk. now rewrite Hk.
  - destruct (forallb _ (x :: t)).
    + cbn. apply not_eq_sym, has_keyword_false in Hk. now rewrite Hk.
    + cbn. destruct (has_keyword k x); auto.
Qed.

Lemma find_setitem_same k v c h :
  exists card, find (has_keyword k) (Header_setitem k v c h) = Some card
               /\ value card = v.
Proof.
  unfold Header_setitem. destruct (Header_contains k h) eqn:E.
  - now apply find_update_same.
  - eexists. split; [apply (find_append_same (mkCard k v _)), E | reflexivity].
Qed.

Lemma find_setitem_other k k' v c h :
  k' <> k ->
  find (has_keyword k') (Header_setitem k v c h) = find (has_keyword k') h.
Proof.
  intros Hk. unfold Header_setitem. destruct (Header_contains k h).
  - now apply find_update_other.
  - now apply find_append_other.
Qed.

Lemma getitem_setitem_same k v c h :
  Header_getitem k (Header_setitem k v c h) = Ok (card_reads v).
Proof.
  destruct (find_setitem_same k v c h) as (card & Hf & <-).
  now apply getitem_find.
Qed.

Lemma getitem_setitem_other k k' v c h :
  k' <> k ->
  Header_getitem k' (Header_setitem k v c h) = Header_getitem k' h.
Proof.
  intros Hk. unfold Header_getitem. now rewrite find_setitem_other.
Qed.

(** ** The lines written by [toHDU] and read by [fromHDU] *)

Lemma read_float_find k h c x :
  find (has_keyword k) h = Some c -> value c = SFloat x ->
  Image.read_float k h = Ok x.
Proof.
  intros Hf Hv. unfold Image.read_float.
  rewrite (getitem_find _ _ _ Hf), Hv. reflexivity.
Qed.

Lemma read_float_setitem_same k x c h :
  Image.read_float k (Header_setitem k (SFloat x) c h) = Ok x.
Proof.
  destruct (find_setitem_same k (SFloat x) c h) as (card & Hf & Hv).
  exact (read_float_find _ _ _ _ Hf Hv).
Qed.

Lemma read_float_setitem_other k k' v c h :
  k' <> k ->
  Image.read_float k' (Header_setitem k v c h) = Image.read_float k' h.
Proof.
  intros Hk. unfold Image.read_float. now rewrite getitem_setitem_other.
Qed.

Lemma read_float_frame k h h' :
  find (has_keyword k) h' = find (has_keyword k) h ->
  Image.read_float k h' = Image.read_float k h.
Proof.
  intros Hf. unfold Image.read_float, Header_getitem. now rewrite Hf.
Qed.

Lemma setitem_accepted k v c h :
  card_accepts v = true -> setitem k v c h = (Ok tt, Header_setitem k v c h).
Proof. unfold setitem. now intros ->. Qed.

Lemma lines_roundtrip ws :
  forall gs ss n h,
    List.length gs = List.length ws ->
    List.length ss = List.length ws ->
    Forall (fun x => is_finite x = true) ws ->
    Forall (fun x => is_finite x = true) gs ->
    Forall (fun x => is_finite x = true) ss ->
    exists h',
      Image.toHDU_lines (S n)
        (zip3 (map Elem ws) (map Elem gs) (map Elem ss)) h = (Ok tt, h')
      /\ Image.fromHDU_lines true n (List.length ws) h' = Ok (ws, gs, ss)
      /\ (forall k, not_line_from (S n) k ->
            find (has_keyword k) h' = find (has_keyword k) h).
Proof.
  induction ws as [| w ws IH]; intros [| g gs] [| s ss] n h Hg Hs Fw Fg Fs;
    try discriminate.
  - exists h. repeat split; reflexivity.
  - injection Hg as Hg. injection Hs as Hs.
    apply Forall_cons_iff in Fw as [Fw Fws].
    apply Forall_cons_iff in Fg as [Fg Fgs].
    apply Forall_cons_iff in Fs as [Fs Fss].
    set (kw := String.append "WAVE" (py_str (S n))).
    set (kg := String.append "GAMMA" (py_str (S n))).
    set (ks := String.append "SCALE" (py_str (S n))).
    set (h1 := Header_setitem kw (SFloat w) (Some "Central wavelength") h).
    set (h2 := Header_setitem kg (SFloat g) (Some "Systemic velocity, km/s") h1).
    set (h3 := Header_setitem ks (SFloat s) (Some "Scaling factor") h2).
    destruct (IH gs ss (S n) h3 Hg Hs Fws Fgs Fss) as (h' & Hw & Hr & Hf).
    exists h'. split; [| split].
    + cbn [map]. unfold zip3. cbn [combine Image.toHDU_lines].
      unfold bind, setitem_from. fold kw kg ks.
      rewrite (setitem_accepted kw), (setitem_accepted kg),
        (setitem_accepted ks) by assumption.
      exact Hw.
    + cbn [Image.fromHDU_lines List.length]. rewrite Nat.add_1_r.
      fold kw kg ks.
      rewrite (read_float_frame kw h3 h'), (read_float_frame kg h3 h'),
        (read_float_frame ks h3 h')
        by (apply Hf; subst kw kg ks;
            auto using wave_not_line, gamma_not_line, scale_not_line).
      subst h3 h2 h1.
      rewrite (read_float_setitem_other ks kw) by (subst ks kw; discriminate).
      rewrite (read_float_setitem_other kg kw) by (subst kg kw; discriminate).
      rewrite (read_float_setitem_same kw).
      rewrite (read_float_setitem_other ks kg) by (subst ks kg; discriminate).
      rewrite (read_float_setitem_same kg).
      rewrite (read_float_setitem_same ks).
      cbn [rbind]. rewrite Hr. reflexivity.
    + intros k Hk. rewrite (Hf k (not_line_from_S _ _ Hk)).
      destruct (Hk (S n) (le_n _)) as (Hkw & Hkg & Hks).
      subst h3 h2 h1.
      now rewrite !find_setitem_other.
Qed.

(** ** The constructor *)

Ltac run_init :=
  cbv [Image.new Image.init Image.instance Image.blank Image.getattr
       Image.set_data Image.set_vxy Image.set_vz Image.set_wave
       Image.set_gamma Image.set_scale bind ret raise lift raise_if
       Image.a_data Image.a_vxy Image.a_vz Image.a_wave Image.a_gamma
       Image.a_scale new_direct checked_data as_1d checked_scale rbind].

Ltac split_test :=
  match goal with
  | |- context [if ?c then _ else _] =>
      match c with
      | context [if _ then _ else _] => fail 1
      | _ => destruct c eqn:?; try reflexivity
      end
  | |- context [match py_float ?o with _ => _ end] =>
      destruct (py_float o); try reflexivity
  | |- context [match py_len ?o with _ => _ end] =>
      destruct (py_len o) eqn:?; try reflexivity
  end.

Lemma new_eq data_ vxy_ wave_ gamma_ scale_ vz_ :
  Image.new data_ vxy_ wave_ gamma_ scale_ vz_
  = new_direct data_ vxy_ wave_ gamma_ scale_ vz_.
Proof.
  run_init.
  repeat match goal with
         | |- context [DopplerError (String ?c ?r)] =>
             generalize (DopplerError (String c r)); intro
         end.
  destruct data_ as [| ? | d]; try reflexivity.
  do 2 split_test.
  destruct wave_ as [| ? | w]; repeat split_test.
  all: destruct gamma_ as [| ? | g]; repeat split_test.
  all: destruct scale_ as [| ? | s]; repeat split_test.
  all: congruence.
Qed.

Lemma rbind_Ok {A B} (r : result A) (k : A -> result B) b :
  rbind r k = Ok b -> exists a, r = Ok a /\ k a = Ok b.
Proof. destruct r; cbn; [eauto | discriminate]. Qed.

Lemma checked_data_Ok data_ vz_ d :
  checked_data data_ vz_ = Ok d ->
  data_ = PyArray d /\ (ndim d = 2 \/ ndim d = 3)
  /\ (ndim d = 3 -> vz_ <> None).
Proof.
  unfold checked_data. destruct data_ as [| ? | a]; try discriminate.
  destruct (Nat.ltb_spec (ndim a) 2), (Nat.ltb_spec 3 (ndim a));
    cbn [orb]; try discriminate.
  destruct (Nat.eqb_spec (ndim a) 3), vz_; cbn; try discriminate;
    intros [= ->]; repeat split; try lia; congruence.
Qed.

Lemma as_1d_Ok msg o a n :
  as_1d msg o = Ok a -> py_len a = Ok n ->
  exists xs, a = Arr1 xs /\ List.length xs = n
    /\ (o = PyArray (Arr1 xs)
        \/ (is_array o = false /\ exists x, py_float o = Ok x /\ xs = [x])).
Proof.
  unfold as_1d. destruct o as [| v | b].
  - discriminate.
  - intros H Hn. apply rbind_Ok in H as (x & Hx & [= <-]).
    injection Hn as <-. exists [x]. eauto 8.
  - destruct (Nat.ltb_spec 1 (ndim b)); [discriminate |].
    intros [= ->] Hn. destruct a as [? | xs | ? ? ? ?]; cbn in *;
      [discriminate | | lia].
    injection Hn as <-. eauto.
Qed.

Lemma checked_scale_Ok scale_ lw r :
  checked_scale scale_ lw = Ok r ->
  (exists ss, scale_ = PyArray (Arr1 ss) /\ List.length ss = lw
              /\ r = Some (Arr1 ss))
  \/ (is_array scale_ = false /\ lw <= 1 /\ r = None).
Proof.
  unfold checked_scale.
  destruct scale_ as [| v | s].
  1,2: destruct (Nat.ltb_spec 1 lw); [discriminate |];
       intros [= <-]; right; auto.
  destruct (Nat.ltb_spec 1 (ndim s)) as [| Hnd]; [discriminate |].
  intros H. apply rbind_Ok in H as (ls & Hls & H).
  destruct (Nat.eqb_spec ls lw); cbn in H; [| discriminate].
  injection H as <-. left.
  destruct s as [? | xs | ? ? ? ?]; cbn in *; [discriminate | | lia].
  injection Hls as <-. eauto.
Qed.

(** What a successful construction says about its arguments and about
    the instance. *)
Lemma new_Ok data_ vxy_ wave_ gamma_ scale_ vz_ img :
  Image.new data_ vxy_ wave_ gamma_ scale_ vz_ = Ok img ->
  exists d ws gs s,
    img = Image.mk d vxy_ vz_ (Arr1 ws) (Arr1 gs) s
    /\ data_ = PyArray d /\ (ndim d = 2 \/ ndim d = 3)
    /\ (ndim d = 3 -> vz_ <> None)
    /\ List.length gs = List.length ws
    /\ (wave_ = PyArray (Arr1 ws)
        \/ (is_array wave_ = false
            /\ exists x, py_float wave_ = Ok x /\ ws = [x]))
    /\ (gamma_ = PyArray (Arr1 gs)
        \/ (is_array gamma_ = false
            /\ exists x, py_float gamma_ = Ok x /\ gs = [x]))
    /\ ((exists ss, scale_ = PyArray (Arr1 ss)
                    /\ List.length ss = List.length ws
                    /\ s = Some (Arr1 ss))
        \/ (is_array scale_ = false /\ List.length ws <= 1 /\ s = None)).
Proof.
  rewrite new_eq. unfold new_direct. intros H.
  apply rbind_Ok in H as (d & Hd & H).
  apply rbind_Ok in H as (w & Hw & H).
  apply rbind_Ok in H as (g & Hg & H).
  apply rbind_Ok in H as (lg & Hlg & H).
  apply rbind_Ok in H as (lw & Hlw & H).
  destruct (Nat.eqb_spec lg lw) as [-> |]; cbn in H; [| discriminate].
  apply rbind_Ok in H as (s & Hs & [= <-]).
  apply checked_data_Ok in Hd as (-> & Hnd & Hvz).
  destruct (as_1d_Ok _ _ _ _ Hw Hlw) as (ws & -> & <- & Hwave).
  destruct (as_1d_Ok _ _ _ _ Hg Hlg) as (gs & -> & Hlen & Hgamma).
  apply checked_scale_Ok in Hs.
  exists d, ws, gs, s. repeat split; auto.
Qed.

(** Construction from arrays of the right shapes succeeds. *)
Lemma new_arrays d vxy_ ws gs s vz_ :
  (ndim d = 2 \/ ndim d = 3) ->
  (ndim d = 3 -> vz_ <> None) ->
  List.length gs = List.length ws ->
  match s with
  | Some a => exists ss, a = Arr1 ss /\ List.length ss = List.length ws
  | None => List.length ws <= 1
  end ->
  Image.new (PyArray d) vxy_ (PyArray (Arr1 ws)) (PyArray (Arr1 gs))
    (match s with Some a => PyArray a | None => PyNone end) vz_
  = Ok (Image.mk d vxy_ vz_ (Arr1 ws) (Arr1 gs) s).
Proof.
  intros Hnd Hvz Hg Hs. rewrite new_eq. unfold new_direct, checked_data.
  replace ((ndim d <? 2) || (3 <? ndim d)) with false
    by (symmetry; apply orb_false_iff; split; apply Nat.ltb_ge; lia).
  replace ((ndim d =? 3) && is_None vz_) with false.
  2:{ symmetry. destruct (Nat.eqb_spec (ndim d) 3) as [E |]; [| reflexivity].
      destruct vz_; [reflexivity | now destruct (Hvz E)]. }
  cbn [rbind as_1d ndim Nat.ltb Nat.leb py_len]. rewrite Hg, Nat.eqb_refl.
  cbn [negb]. destruct s as [a |].
  - destruct Hs as (ss & -> & Hs).
    cbn [checked_scale ndim Nat.ltb Nat.leb py_len rbind].
    rewrite Hs, Nat.eqb_refl. reflexivity.
  - cbn [checked_scale].
    replace (1 <? List.length ws) with false
      by (symmetry; apply Nat.ltb_ge; lia).
    reflexivity.
Qed.

(** ** Round trip through an HDU *)

Lemma ndim_2 d : ndim d = 2 -> exists d0 d1 buf, d = ArrN d0 d1 [] buf.
Proof.
  destruct d as [? | ? | d0 d1 [| ? ?] buf]; cbn; try discriminate; eauto.
Qed.

Lemma ndim_3 d : ndim d = 3 -> exists d0 d1 d2 buf, d = ArrN d0 d1 [d2] buf.
Proof.
  destruct d as [? | ? | d0 d1 [| ? [| ? ?]] buf]; cbn; try discriminate;
    eauto.
Qed.

(** The cards before the lines, when [vxy] and [vz] are values that a
    card takes. *)
Lemma vz_card_accepted d (vz_ : option scalar) :
  (ndim d = 3 -> forall v, vz_ = Some v -> card_accepts v = true) ->
  ndim d = 3 ->
  card_accepts (match vz_ with Some v => v | None => SStr "" end) = true.
Proof. intros H E. destruct vz_; [eauto | reflexivity]. Qed.

Ltac accepted :=
  rewrite setitem_accepted by (eauto using vz_card_accepted);
  cbv beta iota.

Lemma toHDU_head_lines d vxy_ vz_ ws gs ss :
  1 < List.length ws ->
  card_accepts vxy_ = true ->
  (ndim d = 3 -> forall v, vz_ = Some v -> card_accepts v = true) ->
  Image.toHDU_head (Image.mk d vxy_ vz_ (Arr1 ws) (Arr1 gs) (Some (Arr1 ss))) []
  = Image.toHDU_lines 1 (zip3 (map Elem ws) (map Elem gs) (map Elem ss))
      (first_cards d vxy_ vz_ (List.length ws)).
Proof.
  intros Hn Hx Hz. apply Nat.ltb_lt in Hn.
  unfold Image.toHDU_head, first_cards, bind, lift, ret.
  cbn [Image.data Image.vxy Image.vz Image.wave Image.gamma Image.scale
       py_len py_iter].
  do 2 accepted.
  destruct (Nat.eqb_spec (ndim d) 3) as [E | E]; repeat accepted;
    rewrite Hn; reflexivity.
Qed.

Lemma toHDU_head_single d vxy_ vz_ w g :
  card_accepts vxy_ = true ->
  (ndim d = 3 -> forall v, vz_ = Some v -> card_accepts v = true) ->
  is_finite w = true -> is_finite g = true ->
  Image.toHDU_head (Image.mk d vxy_ vz_ (Arr1 [w]) (Arr1 [g]) None) []
  = (Ok tt,
     first_cards d vxy_ vz_ 1
     ++ [ mkCard "WAVE1" (SFloat w) "Central wavelength";
          mkCard "GAMMA1" (SFloat g) "Systemic velocity, km/s" ]).
Proof.
  intros Hx Hz Fw Fg.
  unfold Image.toHDU_head, first_cards, bind, lift, ret, setitem_from.
  cbn [Image.data Image.vxy Image.vz Image.wave Image.gamma Image.scale
       py_len py_iter py_item0 List.length Nat.ltb Nat.leb].
  do 2 accepted.
  destruct (Nat.eqb_spec (ndim d) 3) as [E | E]; repeat accepted;
    reflexivity.
Qed.

Lemma find_first_cards d vxy_ vz_ n :
  find (has_keyword "VXY") (first_cards d vxy_ vz_ n)
  = Some (mkCard "VXY" vxy_ "Vx-Vy pixel size, km/s")
  /\ find (has_keyword "NWAVE") (first_cards d vxy_ vz_ n)
     = Some (mkCard "NWAVE" (SInt (Z.of_nat n)) "Number of wavelengths")
  /\ (ndim d = 3 ->
      find (has_keyword "VZ") (first_cards d vxy_ vz_ n)
      = Some (mkCard "VZ" (match vz_ with Some v => v | None => SStr "" end)
                "Vz pixel size, km/s")).
Proof.
  unfold first_cards.
  destruct (Nat.eqb_spec (ndim d) 3); repeat split; try reflexivity;
    intros; congruence.
Qed.

Lemma not_line_other n k :
  (forall s, k <> String.append "WAVE" s) ->
  (forall s, k <> String.append "GAMMA" s) ->
  (forall s, k <> String.append "SCALE" s) ->
  not_line_from n k.
Proof. intros Hw Hg Hs m _. auto. Qed.

Lemma read_float_contains k h x :
  Image.read_float k h = Ok x -> Header_contains k h = true.
Proof.
  unfold Image.read_float, Header_getitem. rewrite contains_find.
  destruct (find (has_keyword k) h); [reflexivity | discriminate].
Qed.

Lemma fromHDU_lines_first b n count h r :
  Image.fromHDU_lines b n (S count) h = Ok r ->
  Header_contains (String.append "WAVE" (py_str (n + 1))) h = true
  /\ Header_contains (String.append "GAMMA" (py_str (n + 1))) h = true.
Proof.
  cbn [Image.fromHDU_lines]. intros H.
  apply rbind_Ok in H as (w & Hw & H).
  apply rbind_Ok in H as (g & Hg & _).
  eauto using read_float_contains.
Qed.

(** Reading back what [toHDU] wrote, given the header. *)
Lemma fromHDU_written d vxy_ vz_ ws gs s h :
  (ndim d = 2 \/ ndim d = 3) ->
  (ndim d = 3 -> vz_ <> None) ->
  (ndim d = 2 -> vz_ = None) ->
  card_reads vxy_ = vxy_ ->
  (forall v, vz_ = Some v -> card_reads v = v) ->
  List.length gs = List.length ws ->
  1 <= List.length ws ->
  match s with
  | Some a => exists ss, a = Arr1 ss /\ List.length ss = List.length ws
                         /\ 1 < List.length ws
                         /\ Image.fromHDU_lines true 0 (List.length ws) h
                            = Ok (ws, gs, ss)
  | None => List.length ws <= 1
            /\ Image.fromHDU_lines false 0 (List.length ws) h
               = Ok (ws, gs, [])
  end ->
  (forall k, not_line_from 1 k ->
     find (has_keyword k) h
     = find (has_keyword k) (first_cards d vxy_ vz_ (List.length ws))) ->
  Image.fromHDU (mkHDU (PyArray d) h)
  = Ok (Image.mk d vxy_ vz_ (Arr1 ws) (Arr1 gs) s).
Proof.
  intros Hnd Hvz3 Hvz2 Rx Rz Hg Hn Hs Hf.
  destruct (find_first_cards d vxy_ vz_ (List.length ws))
    as (Fvxy & Fnwave & Fvz).
  assert (Lvxy : find (has_keyword "VXY") h = Some
                   (mkCard "VXY" vxy_ "Vx-Vy pixel size, km/s")).
  { rewrite Hf; [exact Fvxy |]. apply not_line_other; discriminate. }
  assert (Lnwave : find (has_keyword "NWAVE") h = Some
                     (mkCard "NWAVE" (SInt (Z.of_nat (List.length ws)))
                        "Number of wavelengths")).
  { rewrite Hf; [exact Fnwave |]. apply not_line_other; discriminate. }
  assert (Lvz : ndim d = 3 -> Header_getitem "VZ" h
                = Ok (match vz_ with Some v => v | None => SStr "" end)).
  { intros E. unfold Header_getitem.
    rewrite Hf by (apply not_line_other; discriminate).
    rewrite (Fvz E). cbn [value].
    destruct vz_ as [v |]; [now rewrite (Rz v) | reflexivity]. }
  assert (Lines : exists r, Image.fromHDU_lines
                    (1 <? List.length ws) 0 (S (List.length ws - 1)) h = Ok r).
  { replace (S (List.length ws - 1)) with (List.length ws) by lia.
    destruct s as [a |].
    - destruct Hs as (ss & _ & _ & Hlt & Hr).
      apply Nat.ltb_lt in Hlt. rewrite Hlt. eauto.
    - destruct Hs as (Hle & Hr).
      replace (1 <? List.length ws) with false
        by (symmetry; apply Nat.ltb_ge; lia).
      eauto. }
  destruct Lines as (r & Hr).
  apply fromHDU_lines_first in Hr as (Cw & Cg). cbn in Cw, Cg.
  unfold Image.fromHDU. cbn [hdu_data hdu_header].
  rewrite Cw, Cg, !contains_find, Lvxy, Lnwave. cbn [negb orb].
  rewrite (getitem_find _ _ _ Lvxy), (getitem_find _ _ _ Lnwave).
  cbn [rbind value py_ndim empty_length card_reads]. rewrite Rx.
  cbn [rbind].
  replace (Z.of_nat (List.length ws) <? 0)%Z with false
    by (symmetry; apply Z.ltb_ge; lia).
  rewrite Nat2Z.id.
  assert (Hvz : (if ndim d =? 3
                 then v <- Header_getitem "VZ" h ;; Ok (Some v)
                 else Ok None) = Ok vz_).
  { destruct (Nat.eqb_spec (ndim d) 3) as [E | E].
    - rewrite (Lvz E). destruct vz_; [reflexivity | now destruct (Hvz3 E)].
    - rewrite Hvz2 by lia. reflexivity. }
  rewrite Hvz. cbn [rbind].
  destruct s as [a |].
  - destruct Hs as (ss & -> & Hss & Hlt & Hr).
    apply Nat.ltb_lt in Hlt. rewrite Hlt, Hr. cbn [rbind].
    apply (new_arrays d vxy_ ws gs (Some (Arr1 ss))); eauto.
  - destruct Hs as (Hle & Hr).
    replace (1 <? List.length ws) with false
      by (symmetry; apply Nat.ltb_ge; lia).
    rewrite Hr. cbn [rbind].
    apply (new_arrays d vxy_ ws gs None); auto.
Qed.

(** * The Image container *)

(** ** The code on small inputs *)

Example new_single_line :
  Image.new (PyArray data2D) (SFloat 40%Q) (PyScalar (SFloat (937 # 2)%Q))
    (PyScalar (SInt 150)) PyNone None
  = Ok (Image.mk data2D (SFloat 40%Q) None
          (Arr1 (floats [937 # 2]%Q)) (Arr1 (floats [150]%Q)) None).
Proof. reflexivity. Qed.

Example new_wave_without_scale :
  Image.new (PyArray data2D) (SFloat 40%Q)
    (PyArray (Arr1 (floats [1945 # 4; 434]%Q))) (PyArray (Arr1 (floats [100; 100]%Q)))
    PyNone None
  = Raise (DopplerError "Image.__init__: scale must be an array in wave is").
Proof. reflexivity. Qed.

(** When the check of [wave] fails, [data], [vxy] and [vz] are already
    assigned to the object under construction. *)
Example init_raises_after_assignments :
  Image.init (PyArray data2D) (SFloat 40%Q) (PyArray data2D)
    (PyScalar (SFloat 100%Q)) PyNone None Image.blank
  = (Raise (DopplerError "Image.__init__: wave can at most be one dimensional"),
     Image.mkAttrs (Some data2D) (Some (SFloat 40%Q)) (Some None)
       None None None).
Proof. reflexivity. Qed.

Example toHDU_two_lines :
  Image.toHDU
    (Image.mk data2D (SFloat 40%Q) None (Arr1 (floats [1945 # 4; 434]%Q))
       (Arr1 (floats [100; 100]%Q)) (Some (Arr1 (floats [1; 1 # 2]%Q))))
  = Ok (mkHDU (PyArray data2D)
          [ mkCard "TYPE" (SStr "doppler.Image") "";
            mkCard "VXY" (SFloat 40%Q) "Vx-Vy pixel size, km/s";
            mkCard "NWAVE" (SInt 2) "Number of wavelengths";
            mkCard "WAVE1" (SFloat (1945 # 4)%Q) "Central wavelength";
            mkCard "GAMMA1" (SFloat 100%Q) "Systemic velocity, km/s";
            mkCard "SCALE1" (SFloat 1%Q) "Scaling factor";
            mkCard "WAVE2" (SFloat (434)%Q) "Central wavelength";
            mkCard "GAMMA2" (SFloat 100%Q) "Systemic velocity, km/s";
            mkCard "SCALE2" (SFloat (1 # 2)%Q) "Scaling factor" ]).
Proof. reflexivity. Qed.

(** An Image without lines cannot be written. *)
Example toHDU_no_line :
  Image.toHDU (Image.mk data2D (SFloat 40%Q) None (Arr1 []) (Arr1 []) None)
  = Raise IndexError.
Proof. reflexivity. Qed.

(** A header that declares no wavelength gives an Image without lines. *)
Example fromHDU_no_line :
  Image.fromHDU
    (mkHDU (PyArray data2D)
       [ mkCard "VXY" (SFloat 40%Q) "";
         mkCard "NWAVE" (SInt 0) "";
         mkCard "WAVE1" (SFloat (1945 # 4)%Q) "";
         mkCard "GAMMA1" (SFloat 100%Q) "" ])
  = Ok (Image.mk data2D (SFloat 40%Q) None (Arr1 []) (Arr1 []) None).
Proof. reflexivity. Qed.

Example fromHDU_missing_line :
  Image.fromHDU
    (mkHDU (PyArray data2D)
       [ mkCard "VXY" (SFloat 40%Q) "";
         mkCard "NWAVE" (SInt 2) "";
         mkCard "WAVE1" (SFloat (1945 # 4)%Q) "";
         mkCard "GAMMA1" (SFloat 100%Q) "";
         mkCard "SCALE1" (SFloat 1%Q) "" ])
  = Raise (KeyError "WAVE2").
Proof. reflexivity. Qed.

Lemma find_app_other k (h t : Header) :
  find (has_keyword k) t = None ->
  find (has_keyword k) (h ++ t) = find (has_keyword k) h.
Proof.
  intros Ht. induction h as [| x h IH]; cbn; [exact Ht |].
  destruct (has_keyword k x); auto.
Qed.

Lemma find_app_first k (h t : Header) :
  find (has_keyword k) h = None ->
  find (has_keyword k) (h ++ t) = find (has_keyword k) t.
Proof.
  intros Hh. induction h as [| x h IH]; cbn in *; [reflexivity |].
  destruct (has_keyword k x); [discriminate | auto].
Qed.

Lemma find_first_cards_line d vxy_ vz_ n k :
  k = "WAVE1" \/ k = "GAMMA1" ->
  find (has_keyword k) (first_cards d vxy_ vz_ n) = None.
Proof.
  unfold first_cards. intros [-> | ->]; destruct (ndim d =? 3); reflexivity.
Qed.

(** C1 (as amended): an Image with at least one line, without scale
    factors when it has exactly one line and without [vz] when its data
    is 2D, whose [vxy] and [vz] are values that a card takes and gives
    back as they are and whose line numbers are finite, is reproduced
    attribute by attribute by [toHDU] followed by [fromHDU]. *)
Theorem toHDU_fromHDU_roundtrip data_ vxy_ wave_ gamma_ scale_ vz_ img n :
  Image.new data_ vxy_ wave_ gamma_ scale_ vz_ = Ok img ->
  py_len (Image.wave img) = Ok n ->
  1 <= n ->
  (n = 1 -> Image.scale img = None) ->
  (ndim (Image.data img) = 2 -> Image.vz img = None) ->
  storable img ->
  (hdu <- Image.toHDU img ;; Image.fromHDU hdu) = Ok img.
Proof.
  intros Hnew Hlen Hn Hone Hvz Hst.
  apply new_Ok in Hnew
    as (d & ws & gs & s & -> & _ & Hnd & Hvz3 & Hg & _ & _ & Hs).
  destruct Hst as ((Ax & Rx) & Kz & Fw & Fg & Fs).
  unfold all_finite, nlines in *.
  cbn [Image.data Image.vxy Image.vz Image.wave Image.gamma Image.scale
       items py_len] in *.
  injection Hlen as <-.
  assert (Az : ndim d = 3 -> forall v, vz_ = Some v -> card_accepts v = true)
    by (intros E v Hv; apply (Kz E v Hv)).
  assert (Rz : forall v, vz_ = Some v -> card_reads v = v).
  { intros v Hv. destruct Hnd as [E | E].
    - rewrite (Hvz E) in Hv. discriminate.
    - apply (Kz E v Hv). }
  unfold Image.toHDU.
  destruct Hs as [(ss & _ & Hss & ->) | (_ & Hle & ->)].
  - assert (Hlt : 1 < List.length ws).
    { destruct (Nat.eq_dec (List.length ws) 1) as [E |]; [| lia].
      discriminate (Hone E). }
    rewrite (toHDU_head_lines _ _ _ _ _ _ Hlt Ax Az).
    destruct (lines_roundtrip ws gs ss 0 (first_cards d vxy_ vz_ (List.length ws))
                Hg Hss Fw Fg (Fs Hlt _ eq_refl)) as (h' & -> & Hr & Hf).
    cbn [rbind].
    apply fromHDU_written; eauto 8.
  - destruct ws as [| w [| ? ?]]; cbn in Hn, Hle; try lia.
    destruct gs as [| g [| ? ?]]; try discriminate.
    apply Forall_cons_iff in Fw as [Fw _].
    apply Forall_cons_iff in Fg as [Fg _].
    rewrite toHDU_head_single by assumption. cbn [rbind].
    apply fromHDU_written; auto.
    + split; [cbn; lia |].
      cbn [Image.fromHDU_lines List.length rbind].
      unfold Image.read_float, Header_getitem.
      rewrite !find_app_first by (apply find_first_cards_line; auto).
      reflexivity.
    + intros k Hk. apply find_app_other.
      destruct (Hk 1 (le_n _)) as (Hkw & Hkg & _).
      change (String.append "WAVE" (py_str 1)) with "WAVE1" in Hkw.
      change (String.append "GAMMA" (py_str 1)) with "GAMMA1" in Hkg.
      apply not_eq_sym, String.eqb_neq in Hkw.
      apply not_eq_sym, String.eqb_neq in Hkg.
      cbn [find]. unfold has_keyword. cbn [keyword].
      now rewrite Hkw, Hkg.
Qed.

Lemma toHDU_fromHDU_roundtrip_witness :
  let img := Image.mk data3D (SFloat 40%Q) (Some (SFloat 25%Q))
               (Arr1 (floats [1945 # 4; 434]%Q)) (Arr1 (floats [100; 100]%Q))
               (Some (Arr1 (floats [1; 1 # 2]%Q))) in
  Image.new (PyArray data3D) (SFloat 40%Q)
    (PyArray (Arr1 (floats [1945 # 4; 434]%Q))) (PyArray (Arr1 (floats [100; 100]%Q)))
    (PyArray (Arr1 (floats [1; 1 # 2]%Q))) (Some (SFloat 25%Q)) = Ok img
  /\ (hdu <- Image.toHDU img ;; Image.fromHDU hdu) = Ok img.
Proof.
  cbv zeta. split; [reflexivity |].
  apply (toHDU_fromHDU_roundtrip (PyArray data3D) (SFloat 40%Q)
           (PyArray (Arr1 (floats [1945 # 4; 434]%Q)))
           (PyArray (Arr1 (floats [100; 100]%Q)))
           (PyArray (Arr1 (floats [1; 1 # 2]%Q))) (Some (SFloat 25%Q)) _ 2).
  - reflexivity.
  - reflexivity.
  - lia.
  - intros H; discriminate H.
  - intros H; discriminate H.
  - unfold storable, kept_by_card, all_finite, floats.
    cbn [Image.vxy Image.vz Image.wave Image.gamma Image.scale items map].
    split; [split; reflexivity |].
    split; [intros _ v Hv; injection Hv as <-; split; reflexivity |].
    split; [repeat constructor |].
    split; [repeat constructor |].
    intros _ s Hs. injection Hs as <-. repeat constructor.
Defined.

(** C1 (as stated) fails: the scale factor of a one-line Image and the
    [vz] of a 2D Image are not written by [toHDU]. *)
Lemma roundtrip_drops_scale_and_vz :
  let img := Image.mk data2D (SFloat 40%Q) (Some (SFloat 25%Q))
               (Arr1 (floats [1945 # 4]%Q)) (Arr1 (floats [100]%Q)) (Some (Arr1 (floats [1]%Q))) in
  Image.new (PyArray data2D) (SFloat 40%Q) (PyArray (Arr1 (floats [1945 # 4]%Q)))
    (PyArray (Arr1 (floats [100]%Q))) (PyArray (Arr1 (floats [1]%Q))) (Some (SFloat 25%Q))
  = Ok img
  /\ (hdu <- Image.toHDU img ;; Image.fromHDU hdu)
     = Ok (Image.mk data2D (SFloat 40%Q) None
             (Arr1 (floats [1945 # 4]%Q)) (Arr1 (floats [100]%Q)) None)
  /\ (hdu <- Image.toHDU img ;; Image.fromHDU hdu) <> Ok img.
Proof.
  cbv zeta. repeat split; try reflexivity. vm_compute. discriminate.
Qed.

(** C2 (as amended): a constructed Image has one-dimensional [wave] and
    [gamma] arrays of equal length; the length is at least one unless
    [wave] was given as an empty array. *)
Theorem constructed_lines data_ vxy_ wave_ gamma_ scale_ vz_ img :
  Image.new data_ vxy_ wave_ gamma_ scale_ vz_ = Ok img ->
  exists ws gs,
    Image.wave img = Arr1 ws /\ Image.gamma img = Arr1 gs
    /\ List.length gs = List.length ws
    /\ (wave_ <> PyArray (Arr1 []) -> 1 <= List.length ws).
Proof.
  intros Hnew.
  apply new_Ok in Hnew
    as (d & ws & gs & s & -> & _ & _ & _ & Hg & Hw & _ & _).
  exists ws, gs. repeat split; auto.
  intros Hne. destruct Hw as [-> | (_ & x & _ & ->)]; [| cbn; lia].
  destruct ws; [congruence | cbn; lia].
Qed.

Lemma constructed_lines_witness :
  exists ws gs,
    Arr1 (floats [1945 # 4]%Q) = Arr1 ws /\ Arr1 (floats [100]%Q) = Arr1 gs
    /\ List.length gs = List.length ws
    /\ (PyScalar (SFloat (1945 # 4)%Q) <> PyArray (Arr1 []) ->
        1 <= List.length ws).
Proof.
  apply (constructed_lines (PyArray data2D) (SFloat 40%Q)
           (PyScalar (SFloat (1945 # 4)%Q)) (PyScalar (SInt 100)) PyNone None
           (Image.mk data2D (SFloat 40%Q) None
              (Arr1 (floats [1945 # 4]%Q)) (Arr1 (floats [100]%Q)) None)).
  reflexivity.
Defined.

(** C2 (as stated) fails: empty [wave] and [gamma] arrays are accepted,
    and the Image has no line. *)
Lemma empty_wave_accepted :
  Image.new (PyArray data2D) (SFloat 40%Q) (PyArray (Arr1 []))
    (PyArray (Arr1 [])) PyNone None
  = Ok (Image.mk data2D (SFloat 40%Q) None (Arr1 []) (Arr1 []) None)
  /\ py_len (Arr1 []) = Ok 0.
Proof. split; reflexivity. Qed.

(** C3 (as amended): a constructed Image carries scale factors exactly
    when [scale] was given as an array, which then has one factor per
    line; with more than one line it always does. *)
Theorem constructed_scale data_ vxy_ wave_ gamma_ scale_ vz_ img :
  Image.new data_ vxy_ wave_ gamma_ scale_ vz_ = Ok img ->
  exists n,
    py_len (Image.wave img) = Ok n
    /\ (1 < n -> Image.scale img <> None)
    /\ (Image.scale img <> None <-> is_array scale_ = true)
    /\ (forall s, Image.scale img = Some s ->
          scale_ = PyArray s /\ py_len s = Ok n).
Proof.
  intros Hnew.
  apply new_Ok in Hnew
    as (d & ws & gs & s & -> & _ & _ & _ & _ & _ & _ & Hs).
  exists (List.length ws). cbn.
  destruct Hs as [(ss & -> & Hss & ->) | (Hna & Hle & ->)].
  - repeat split; try congruence.
    match goal with H : Some _ = Some _ |- _ => injection H as <- end.
    cbn. congruence.
  - repeat split; try congruence; try lia.
Qed.

Lemma constructed_scale_witness :
  exists n,
    py_len (Arr1 (floats [1945 # 4; 434]%Q)) = Ok n
    /\ (1 < n -> Some (Arr1 (floats [1; 1 # 2]%Q)) <> None)
    /\ (Some (Arr1 (floats [1; 1 # 2]%Q)) <> None
        <-> is_array (PyArray (Arr1 (floats [1; 1 # 2]%Q))) = true)
    /\ (forall s, Some (Arr1 (floats [1; 1 # 2]%Q)) = Some s ->
          PyArray (Arr1 (floats [1; 1 # 2]%Q)) = PyArray s /\ py_len s = Ok n).
Proof.
  apply (constructed_scale (PyArray data2D) (SFloat 40%Q)
           (PyArray (Arr1 (floats [1945 # 4; 434]%Q)))
           (PyArray (Arr1 (floats [100; 100]%Q)))
           (PyArray (Arr1 (floats [1; 1 # 2]%Q))) None
           (Image.mk data2D (SFloat 40%Q) None
              (Arr1 (floats [1945 # 4; 434]%Q)) (Arr1 (floats [100; 100]%Q))
              (Some (Arr1 (floats [1; 1 # 2]%Q))))).
  reflexivity.
Defined.

(** C3 (as stated) fails: a scale array of length one is kept by an
    Image with exactly one line. *)
Lemma one_line_keeps_scale :
  Image.new (PyArray data2D) (SFloat 40%Q) (PyArray (Arr1 (floats [1945 # 4]%Q)))
    (PyArray (Arr1 (floats [100]%Q))) (PyArray (Arr1 (floats [1]%Q))) None
  = Ok (Image.mk data2D (SFloat 40%Q) None
          (Arr1 (floats [1945 # 4]%Q)) (Arr1 (floats [100]%Q)) (Some (Arr1 (floats [1]%Q))))
  /\ py_len (Arr1 (floats [1945 # 4]%Q)) = Ok 1.
Proof. split; reflexivity. Qed.

Lemma fromHDU_Ok hdu img :
  Image.fromHDU hdu = Ok img ->
  Header_contains "VXY" (hdu_header hdu) = true
  /\ Header_contains "NWAVE" (hdu_header hdu) = true
  /\ Header_contains "WAVE1" (hdu_header hdu) = true
  /\ Header_contains "GAMMA1" (hdu_header hdu) = true
  /\ exists nd vxy_ w g s,
       py_ndim (hdu_data hdu) = Ok nd
       /\ Image.new (hdu_data hdu) vxy_ w g s
            (if nd =? 3
             then match Header_getitem "VZ" (hdu_header hdu) with
                  | Ok v => Some v
                  | Raise _ => None
                  end
             else None) = Ok img
       /\ (nd = 3 -> is_Ok (Header_getitem "VZ" (hdu_header hdu)) = true).
Proof.
  unfold Image.fromHDU.
  destruct (Header_contains "VXY" _), (Header_contains "NWAVE" _),
    (Header_contains "WAVE1" _), (Header_contains "GAMMA1" _);
    cbn [negb orb]; try discriminate.
  intros H. repeat split.
  apply rbind_Ok in H as (vxy_ & _ & H).
  apply rbind_Ok in H as (nd & Hnd & H).
  apply rbind_Ok in H as (vz_ & Hvz & H).
  apply rbind_Ok in H as (nwave & _ & H).
  apply rbind_Ok in H as (n & _ & H).
  apply rbind_Ok in H as ([[ws gs] ss] & _ & H).
  exists nd, vxy_. do 3 eexists. split; [exact Hnd |].
  destruct (Nat.eqb_spec nd 3) as [E | E].
  - apply rbind_Ok in Hvz as (v & Hv & [= <-]). rewrite Hv.
    split; [exact H |]. reflexivity.
  - injection Hvz as <-. split; [exact H | congruence].
Qed.

(** C4 (as amended): a constructed Image has the [vz] it was given,
    which is set whenever the data is 3D; an Image made by [fromHDU] has
    a [vz] exactly when its data is 3D. *)
Theorem constructed_vz :
  (forall data_ vxy_ wave_ gamma_ scale_ vz_ img,
      Image.new data_ vxy_ wave_ gamma_ scale_ vz_ = Ok img ->
      Image.vz img = vz_
      /\ (ndim (Image.data img) = 3 -> Image.vz img <> None))
  /\ (forall hdu img,
        Image.fromHDU hdu = Ok img ->
        (Image.vz img <> None <-> ndim (Image.data img) = 3)).
Proof.
  split.
  - intros data_ vxy_ wave_ gamma_ scale_ vz_ img Hnew.
    apply new_Ok in Hnew
      as (d & ws & gs & s & -> & _ & _ & Hvz & _).
    cbn. auto.
  - intros hdu img H.
    apply fromHDU_Ok in H
      as (_ & _ & _ & _ & nd & vxy_ & w & g & s & Hnd & Hnew & Hvz).
    apply new_Ok in Hnew
      as (d & ws & gs & s' & -> & Hd & _ & Hvz3 & _).
    rewrite Hd in Hnd. injection Hnd as <-. cbn.
    destruct (Nat.eqb_spec (ndim d) 3) as [E | E].
    + split; [auto |]. intros _. specialize (Hvz E).
      destruct (Header_getitem "VZ" _); [discriminate | discriminate Hvz].
    + split; [congruence | contradiction].
Qed.

Lemma constructed_vz_witness :
  Some (SFloat 25%Q) = Some (SFloat 25%Q)
  /\ (ndim data3D = 3 -> Some (SFloat 25%Q) <> None).
Proof.
  apply (proj1 constructed_vz (PyArray data3D) (SFloat 40%Q)
           (PyScalar (SFloat (1945 # 4)%Q)) (PyScalar (SFloat 100%Q))
           PyNone (Some (SFloat 25%Q))
           (Image.mk data3D (SFloat 40%Q) (Some (SFloat 25%Q))
              (Arr1 (floats [1945 # 4]%Q)) (Arr1 (floats [100]%Q)) None)).
  reflexivity.
Defined.

(** C4 (as stated) fails: a [vz] given with 2D data is stored. *)
Lemma vz_kept_for_2D_data :
  Image.new (PyArray data2D) (SFloat 40%Q) (PyScalar (SFloat (1945 # 4)%Q))
    (PyScalar (SFloat 100%Q)) PyNone (Some (SFloat 25%Q))
  = Ok (Image.mk data2D (SFloat 40%Q) (Some (SFloat 25%Q))
          (Arr1 (floats [1945 # 4]%Q)) (Arr1 (floats [100]%Q)) None)
  /\ ndim data2D = 2.
Proof. split; reflexivity. Qed.

(** The constructor itself accepts a negative wavelength and a negative
    systemic velocity. *)
Example negative_wave_constructed :
  Image.new (PyArray data2D) (SFloat 40%Q)
    (PyArray (Arr1 (floats [- (1945 # 4)]%Q))) (PyScalar (SFloat (- (100))%Q))
    PyNone None
  = Ok (Image.mk data2D (SFloat 40%Q) None
          (Arr1 (floats [- (1945 # 4)]%Q)) (Arr1 (floats [- (100)]%Q)) None).
Proof. reflexivity. Qed.





(** C7: [fromHDU] raises a DopplerError when VXY, NWAVE, WAVE1 or GAMMA1
    is missing from the header, and returns an Image only when the four
    are present. *)
Theorem fromHDU_required_fields hdu :
  (Header_contains "VXY" (hdu_header hdu) = false
   \/ Header_contains "NWAVE" (hdu_header hdu) = false
   \/ Header_contains "WAVE1" (hdu_header hdu) = false
   \/ Header_contains "GAMMA1" (hdu_header hdu) = false ->
   is_DopplerError (Image.fromHDU hdu) = true)
  /\ (forall img,
        Image.fromHDU hdu = Ok img ->
        Header_contains "VXY" (hdu_header hdu) = true
        /\ Header_contains "NWAVE" (hdu_header hdu) = true
        /\ Header_contains "WAVE1" (hdu_header hdu) = true
        /\ Header_contains "GAMMA1" (hdu_header hdu) = true).
Proof.
  split.
  - unfold Image.fromHDU.
    intros [H | [H | [H | H]]]; rewrite H; cbn [negb orb];
      rewrite ?orb_true_r; reflexivity.
  - intros img H. apply fromHDU_Ok in H as (? & ? & ? & ? & _). auto.
Qed.

Lemma fromHDU_required_fields_witness :
  is_DopplerError
    (Image.fromHDU
       (mkHDU (PyArray data2D)
          [ mkCard "VXY" (SFloat 40%Q) "";
            mkCard "NWAVE" (SInt 1) "";
            mkCard "WAVE1" (SFloat (1945 # 4)%Q) "" ])) = true.
Proof.
  apply (proj1 (fromHDU_required_fields _)).
  right. right. right. reflexivity.
Defined.

(** ** Errors of the constructor *)

Lemma entries_array a :
  entries (PyArray a) = match py_len a with
                        | Ok n => Some n
                        | Raise _ => None
                        end.
Proof. destruct a; reflexivity. Qed.

Lemma as_1d_entries msg o a n :
  as_1d msg o = Ok a -> py_len a = Ok n -> entries o = Some n.
Proof.
  intros Ha Hn. destruct o as [| v | b]; unfold as_1d in Ha.
  - discriminate.
  - apply rbind_Ok in Ha as (x & _ & [= <-]). injection Hn as <-.
    reflexivity.
  - destruct (1 <? ndim b); [discriminate |]. injection Ha as ->.
    now rewrite entries_array, Hn.
Qed.

Lemma py_len_Raise a e : py_len a = Raise e -> e = TypeError.
Proof. destruct a; cbn; congruence. Qed.

Lemma float_of_text_Raise s e : float_of_text s = Raise e -> e = ValueError.
Proof.
  unfold float_of_text.
  destruct (take_sign _) as [negative l].
  destruct (_ || _); [discriminate |].
  destruct (String.eqb _ "nan"); [discriminate |].
  destruct (digits l 0 0) as [[int_part int_count] l1].
  destruct (match l1 with
            | [] => _
            | _ :: _ => _
            end) as [[frac_part frac_count] l2].
  destruct (_ =? 0); [congruence |].
  destruct (exponent l2); congruence.
Qed.

Lemma scalar_float_Raise v e :
  scalar_float v = Raise e -> e = ValueError \/ e = OverflowError.
Proof.
  destruct v as [z | x | s]; cbn [scalar_float].
  - unfold float_of_int. destruct (binary64 _); intros [= <-]; auto.
  - discriminate.
  - intros H. left. exact (float_of_text_Raise _ _ H).
Qed.

Lemma as_1d_DopplerError msg o e :
  as_1d msg o = Raise e -> is_DopplerError (@Raise Image.t e) = true ->
  dims_over 1 o = true.
Proof.
  destruct o as [| v | a]; unfold as_1d, dims_over.
  - cbn. intros [= <-]. discriminate.
  - cbn [py_float]. destruct (scalar_float v) as [x | e'] eqn:E; cbn [rbind];
      [discriminate |].
    intros [= <-]. apply scalar_float_Raise in E as [-> | ->]; discriminate.
  - destruct (1 <? ndim a); [reflexivity | discriminate].
Qed.

Lemma checked_data_cases data_ vz_ :
  match checked_data data_ vz_ with
  | Ok d => data_ = PyArray d /\ is_2D_or_3D data_ = true
            /\ (is_3D data_ = true -> vz_ <> None)
  | Raise e => (exists msg, e = DopplerError msg)
               /\ (is_2D_or_3D data_ = false
                   \/ (is_3D data_ = true /\ vz_ = None))
  end.
Proof.
  unfold checked_data. destruct data_ as [| v | d];
    cbn [is_2D_or_3D is_3D]; eauto.
  destruct (ndim d) as [| [| [| [| n]]]]; cbn; eauto.
  - repeat split; congruence.
  - destruct vz_; cbn; eauto. repeat split; congruence.
Qed.

(** The attributes set when [__init__] returns or raises. *)
Lemma init_state data_ vxy_ wave_ gamma_ scale_ vz_ :
  match checked_data data_ vz_ with
  | Raise e =>
      Image.init data_ vxy_ wave_ gamma_ scale_ vz_ Image.blank
      = (Raise e, Image.blank)
  | Ok d =>
      let a := snd (Image.init data_ vxy_ wave_ gamma_ scale_ vz_ Image.blank)
      in Image.a_data a = Some d /\ Image.a_vxy a = Some vxy_
         /\ Image.a_vz a = Some vz_
  end.
Proof.
  run_init.
  repeat match goal with
         | |- context [DopplerError (String ?c ?r)] =>
             generalize (DopplerError (String c r)); intro
         end.
  destruct data_ as [| ? | d]; try reflexivity.
  destruct ((ndim d <? 2) || (3 <? ndim d)); [reflexivity |].
  destruct ((ndim d =? 3) && is_None vz_); [reflexivity |].
  destruct wave_ as [| ? | w];
    repeat first [ split_test | solve [cbn; auto] ].
  all: destruct gamma_ as [| ? | g];
    repeat first [ split_test | solve [cbn; auto] ].
  all: destruct scale_ as [| ? | s];
    repeat first [ split_test | solve [cbn; auto] ].
Qed.

Lemma new_not_malformed data_ vxy_ wave_ gamma_ scale_ vz_ img :
  Image.new data_ vxy_ wave_ gamma_ scale_ vz_ = Ok img ->
  ~ malformed data_ wave_ gamma_ scale_ vz_.
Proof.
  intros Hnew.
  apply new_Ok in Hnew
    as (d & ws & gs & s & _ & -> & Hnd & Hvz & Hg & Hw & Hgm & Hs).
  assert (Ew : entries wave_ = Some (List.length ws)
               /\ dims_over 1 wave_ = false).
  { destruct Hw as [-> | (Hna & x & Hx & ->)]; [split; reflexivity |].
    destruct wave_ as [| v | ?]; try discriminate; auto. }
  assert (Eg : entries gamma_ = Some (List.length gs)
               /\ dims_over 1 gamma_ = false).
  { destruct Hgm as [-> | (Hna & x & Hx & ->)]; [split; reflexivity |].
    destruct gamma_ as [| v | ?]; try discriminate; auto. }
  destruct Ew as (Ew & Dw), Eg as (Eg & Dg).
  unfold malformed. rewrite Ew, Eg, Dw, Dg, Hg. cbn [is_2D_or_3D is_3D].
  intros [H | [(H3 & Hz) | [H | [H | [H | [H | [(Ha & H) | H]]]]]]];
    try discriminate; try congruence.
  - destruct Hnd as [E | E]; rewrite E in H; discriminate.
  - apply Nat.eqb_eq in H3. exact (Hvz H3 Hz).
  - destruct Hs as [(ss & -> & _) | (Hna & _)];
      [discriminate | destruct scale_; discriminate].
  - destruct Hs as [(ss & -> & Hss & _) | (Hna & _)]; [| congruence].
    apply H. cbn. congruence.
  - destruct H as (n & [= <-] & Hn & Hna).
    destruct Hs as [(ss & -> & _) | (_ & Hle & _)]; [discriminate | lia].
Qed.

Lemma new_DopplerError_malformed data_ vxy_ wave_ gamma_ scale_ vz_ :
  is_DopplerError (Image.new data_ vxy_ wave_ gamma_ scale_ vz_) = true ->
  malformed data_ wave_ gamma_ scale_ vz_.
Proof.
  rewrite new_eq. unfold new_direct, malformed.
  pose proof (checked_data_cases data_ vz_) as Hd.
  destruct (checked_data data_ vz_) as [d | e]; cbn [rbind].
  2:{ intros _. destruct Hd as (_ & [H | H]); auto. }
  destruct Hd as (-> & _ & _).
  destruct (as_1d _ wave_) as [w | e] eqn:Hw; cbn [rbind].
  2:{ intros He. right. right. left.
      exact (as_1d_DopplerError _ _ _ Hw He). }
  destruct (as_1d _ gamma_) as [g | e] eqn:Hg; cbn [rbind].
  2:{ intros He. right. right. right. left.
      exact (as_1d_DopplerError _ _ _ Hg He). }
  destruct (py_len g) as [lg | e] eqn:Hlg; cbn [rbind].
  2:{ rewrite (py_len_Raise _ _ Hlg). discriminate. }
  destruct (py_len w) as [lw | e] eqn:Hlw; cbn [rbind].
  2:{ rewrite (py_len_Raise _ _ Hlw). discriminate. }
  rewrite (as_1d_entries _ _ _ _ Hw Hlw), (as_1d_entries _ _ _ _ Hg Hlg).
  destruct (Nat.eqb_spec lg lw) as [-> | Hne]; cbn [negb].
  2:{ intros _. do 5 right. left. congruence. }
  unfold checked_scale. destruct scale_ as [| v | s].
  1,2: destruct (Nat.ltb_spec 1 lw); [| discriminate];
       intros _; do 7 right; exists lw; auto.
  destruct (1 <? ndim s) eqn:Hs; [intros _; do 4 right; left; exact Hs |].
  rewrite entries_array.
  destruct (py_len s) as [ls | e] eqn:Hls; cbn [rbind].
  2:{ rewrite (py_len_Raise _ _ Hls). discriminate. }
  destruct (Nat.eqb_spec ls lw); cbn [negb]; [discriminate |].
  intros _. do 6 right. left. split; [reflexivity | congruence].
Qed.

Lemma as_1d_typed msg o :
  number_or_sized o = true ->
  (exists a n, as_1d msg o = Ok a /\ py_len a = Ok n)
  \/ as_1d msg o = Raise (DopplerError msg).
Proof.
  destruct o as [| v | a]; unfold as_1d, number_or_sized.
  - discriminate.
  - cbn [py_float]. destruct (scalar_float v) as [x |]; [| discriminate].
    intros _. left. exists (Arr1 [x]), 1. split; reflexivity.
  - destruct (1 <? ndim a); [auto |].
    destruct (py_len a) as [n |] eqn:Hn; [| discriminate]. eauto.
Qed.

Lemma new_typed data_ vxy_ wave_ gamma_ scale_ vz_ :
  number_or_sized wave_ = true ->
  number_or_sized gamma_ = true ->
  none_or_sized scale_ = true ->
  (exists img, Image.new data_ vxy_ wave_ gamma_ scale_ vz_ = Ok img)
  \/ is_DopplerError (Image.new data_ vxy_ wave_ gamma_ scale_ vz_) = true.
Proof.
  intros Tw Tg Ts. rewrite new_eq. unfold new_direct.
  pose proof (checked_data_cases data_ vz_) as Hd.
  destruct (checked_data data_ vz_) as [d | e]; cbn [rbind].
  2:{ destruct Hd as ((msg & ->) & _). auto. }
  destruct (as_1d_typed "Image.__init__: wave can at most be one dimensional"
              wave_ Tw) as [(w & lw & -> & Hlw) | ->]; [| auto].
  destruct (as_1d_typed "Image.__init__: gamma can at most be one dimensional"
              gamma_ Tg) as [(g & lg & -> & Hlg) | ->]; [| auto].
  cbn [rbind]. rewrite Hlg, Hlw. cbn [rbind].
  destruct (negb (lg =? lw)); [auto |].
  unfold checked_scale. destruct scale_ as [| v | s].
  1,2: destruct (1 <? lw); cbn; eauto.
  destruct (1 <? ndim s); [auto |].
  cbn in Ts. destruct (py_len s) as [ls |]; [| discriminate].
  cbn [rbind]. destruct (negb (ls =? lw)); cbn; eauto.
Qed.

Lemma as_1d_Raise msg o e : as_1d msg o = Raise e -> constructor_exn e.
Proof.
  unfold constructor_exn.
  destruct o as [| v | a]; unfold as_1d.
  - cbn. intros [= <-]. auto.
  - cbn [py_float]. destruct (scalar_float v) as [x | e'] eqn:E; cbn [rbind];
      [discriminate |].
    intros [= <-]. apply scalar_float_Raise in E as [-> | ->]; auto.
  - destruct (1 <? ndim a); [| discriminate]. intros [= <-]. eauto.
Qed.

Lemma checked_scale_Raise scale_ lw e :
  checked_scale scale_ lw = Raise e -> constructor_exn e.
Proof.
  unfold constructor_exn, checked_scale.
  destruct scale_ as [| v | s].
  1,2: destruct (1 <? lw); [| discriminate]; intros [= <-]; eauto.
  destruct (1 <? ndim s); [intros [= <-]; eauto |].
  destruct (py_len s) as [ls | e'] eqn:E; cbn [rbind].
  - destruct (negb (ls =? lw)); [| discriminate]. intros [= <-]. eauto.
  - intros [= <-]. rewrite (py_len_Raise _ _ E). auto.
Qed.

Lemma new_Raise data_ vxy_ wave_ gamma_ scale_ vz_ e :
  Image.new data_ vxy_ wave_ gamma_ scale_ vz_ = Raise e -> constructor_exn e.
Proof.
  rewrite new_eq. unfold new_direct.
  pose proof (checked_data_cases data_ vz_) as Hd.
  destruct (checked_data data_ vz_) as [d | e']; cbn [rbind].
  2:{ intros [= <-]. left. apply Hd. }
  destruct (as_1d _ wave_) as [w | e'] eqn:Hw; cbn [rbind].
  2:{ intros [= <-]. exact (as_1d_Raise _ _ _ Hw). }
  destruct (as_1d _ gamma_) as [g | e'] eqn:Hg; cbn [rbind].
  2:{ intros [= <-]. exact (as_1d_Raise _ _ _ Hg). }
  destruct (py_len g) as [lg | e'] eqn:Hlg; cbn [rbind].
  2:{ intros [= <-]. rewrite (py_len_Raise _ _ Hlg). right. auto. }
  destruct (py_len w) as [lw | e'] eqn:Hlw; cbn [rbind].
  2:{ intros [= <-]. rewrite (py_len_Raise _ _ Hlw). right. auto. }
  destruct (negb (lg =? lw)); [intros [= <-]; left; eauto |].
  destruct (checked_scale scale_ lw) as [sc | e'] eqn:Hs; cbn [rbind];
    [discriminate |].
  intros [= <-]. exact (checked_scale_Raise _ _ _ Hs).
Qed.

(** An integer beyond the range of a float is refused by [float] before
    the next argument is looked at. *)
Example huge_wave_raises_OverflowError :
  Image.new (PyArray data2D) (SFloat 40%Q) (PyScalar (SInt (10 ^ 400)))
    (PyArray data2D) PyNone None
  = Raise OverflowError.
Proof. vm_compute. reflexivity. Qed.

(** C5 (as amended): a DopplerError is raised only for a structurally
    malformed input, and for every malformed input whose [wave] and
    [gamma] are numbers that [float] converts or arrays with a length
    and whose [scale] is not an array without one; whatever else leaves
    the constructor is a TypeError, a ValueError or an OverflowError.
    A failed check on [data] or [vz] leaves the object without
    attributes; the later checks run once [data], [vxy] and [vz] are
    assigned. *)
Theorem constructor_errors data_ vxy_ wave_ gamma_ scale_ vz_ :
  (is_DopplerError (Image.new data_ vxy_ wave_ gamma_ scale_ vz_) = true ->
   malformed data_ wave_ gamma_ scale_ vz_)
  /\ (number_or_sized wave_ = true ->
      number_or_sized gamma_ = true ->
      none_or_sized scale_ = true ->
      malformed data_ wave_ gamma_ scale_ vz_ ->
      is_DopplerError (Image.new data_ vxy_ wave_ gamma_ scale_ vz_) = true)
  /\ (forall e,
        Image.new data_ vxy_ wave_ gamma_ scale_ vz_ = Raise e ->
        (exists msg, e = DopplerError msg)
        \/ e = TypeError \/ e = ValueError \/ e = OverflowError)
  /\ (is_2D_or_3D data_ = false \/ (is_3D data_ = true /\ vz_ = None) ->
      exists msg,
        Image.init data_ vxy_ wave_ gamma_ scale_ vz_ Image.blank
        = (Raise (DopplerError msg), Image.blank))
  /\ (is_2D_or_3D data_ = true ->
      (is_3D data_ = true -> vz_ <> None) ->
      exists d,
        data_ = PyArray d
        /\ let a := snd (Image.init data_ vxy_ wave_ gamma_ scale_ vz_
                           Image.blank) in
           Image.a_data a = Some d /\ Image.a_vxy a = Some vxy_
           /\ Image.a_vz a = Some vz_).
Proof.
  repeat apply conj.
  - apply new_DopplerError_malformed.
  - intros Tw Tg Ts Hm.
    destruct (new_typed data_ vxy_ wave_ gamma_ scale_ vz_ Tw Tg Ts)
      as [(img & Hnew) | H]; [| exact H].
    destruct (new_not_malformed _ _ _ _ _ _ _ Hnew Hm).
  - intros e He. exact (new_Raise _ _ _ _ _ _ _ He).
  - intros Hbad.
    pose proof (checked_data_cases data_ vz_) as Hd.
    pose proof (init_state data_ vxy_ wave_ gamma_ scale_ vz_) as Hi.
    destruct (checked_data data_ vz_) as [d | e].
    + destruct Hd as (_ & H2 & H3).
      destruct Hbad as [H | (H & Hz)]; [congruence | now destruct (H3 H)].
    + destruct Hd as ((msg & ->) & _). eauto.
  - intros H2 H3.
    pose proof (checked_data_cases data_ vz_) as Hd.
    pose proof (init_state data_ vxy_ wave_ gamma_ scale_ vz_) as Hi.
    destruct (checked_data data_ vz_) as [d | e].
    + destruct Hd as (-> & _). eauto.
    + destruct Hd as (_ & [H | (H & Hz)]); [congruence | now destruct (H3 H)].
Qed.

Lemma constructor_errors_witness :
  is_DopplerError
    (Image.new (PyArray data2D) (SFloat 40%Q)
       (PyArray (Arr1 (floats [1945 # 4; 434]%Q)))
       (PyArray (Arr1 (floats [100; 100]%Q))) PyNone None) = true.
Proof.
  apply (proj1 (proj2 (constructor_errors (PyArray data2D) (SFloat 40%Q)
                         (PyArray (Arr1 (floats [1945 # 4; 434]%Q)))
                         (PyArray (Arr1 (floats [100; 100]%Q))) PyNone None))).
  - reflexivity.
  - reflexivity.
  - reflexivity.
  - do 7 right. exists 2. repeat split. lia.
Defined.

(** C5 (as stated) fails: with [wave] and [gamma] arrays of rank 0 the
    two-dimensional [scale] is never looked at; [len] raises a TypeError
    first. *)
Lemma rank0_wave_raises_TypeError :
  malformed (PyArray data2D) (PyArray (Arr0 (1945 # 4)%Q))
    (PyArray (Arr0 100%Q)) (PyArray data2D) None
  /\ Image.new (PyArray data2D) (SFloat 40%Q) (PyArray (Arr0 (1945 # 4)%Q))
       (PyArray (Arr0 100%Q)) (PyArray data2D) None
     = Raise TypeError.
Proof.
  split; [| reflexivity].
  do 4 right. left. reflexivity.
Qed.

(** * The Map container *)

Example Map_init_cards :
  Map.init 0 (Map.AList [])
    [ OHeader [ mkCard "OBJECT" (SStr "IP Peg") "Object name";
                mkCard "TELESCOP" (SStr "William Herschel Telescope")
                  "Telescope name" ] ]
  = (Ok (Map.mk 1 []),
     [ OHeader [ mkCard "OBJECT" (SStr "IP Peg") "Object name";
                 mkCard "TELESCOP" (SStr "William Herschel Telescope")
                   "Telescope name" ];
       OHeader
         ([ mkCard "OBJECT" (SStr "IP Peg") "Object name";
            mkCard "TELESCOP" (SStr "William Herschel Telescope")
              "Telescope name" ] ++ Map.provenance) ]).
Proof. reflexivity. Qed.

Example Map_init_not_an_Image :
  fst (Map.init 0 (Map.AList [Map.NotAnImage]) [OHeader []])
  = Raise (DopplerError "Map.__init__: element 0 of map is not an Image.").
Proof. reflexivity. Qed.

Lemma store_update_new st o f :
  store_update (st ++ [o]) (List.length st) f = st ++ [f o].
Proof. induction st as [| x st IH]; cbn; [reflexivity | now rewrite IH]. Qed.

Lemma In_insert_after_last k card h c :
  In c (insert_after_last k card h) <-> c = card \/ In c h.
Proof.
  induction h as [| x t IH]; cbn.
  - intuition congruence.
  - destruct (Header_contains k t); cbn; rewrite ?IH; intuition congruence.
Qed.

Lemma In_add_commentary k text h c :
  In c (Header_add_commentary k text h)
  <-> c = mkCard k (SStr text) "" \/ In c h.
Proof.
  unfold Header_add_commentary. destruct (Header_contains k h).
  - apply In_insert_after_last.
  - rewrite in_app_iff. cbn. intuition congruence.
Qed.

(** C10: [Map.__init__] leaves the caller's header, and every other
    object of the caller, as it was: the new Map holds a copy, a new
    object, whose cards are the caller's and the four provenance cards. *)
Theorem Map_init_keeps_caller_header st head_ h data_ :
  as_Header st head_ = Some h ->
  let out := Map.init head_ data_ st in
  as_Header (snd out) head_ = Some h
  /\ (forall r, r < List.length st -> nth_error (snd out) r = nth_error st r)
  /\ (forall m,
        fst out = Ok m ->
        Map.head m <> head_
        /\ nth_error st (Map.head m) = None
        /\ exists h',
             as_Header (snd out) (Map.head m) = Some h'
             /\ forall c, In c h' <-> In c h \/ In c Map.provenance).
Proof.
  intros Hh.
  assert (Hlt : head_ < List.length st).
  { apply nth_error_Some. unfold as_Header in Hh.
    destruct (nth_error st head_); [discriminate | discriminate]. }
  cbv zeta. unfold Map.init, bind, alloc, mutate, lift, ret.
  rewrite Hh. rewrite !store_update_new.
  set (h' := Header_add_commentary "HISTORY" _ _).
  assert (Hold : forall r, r < List.length st ->
                   nth_error (st ++ [OHeader h']) r = nth_error st r).
  { intros r Hr. now apply nth_error_app1. }
  destruct (Map.check_data data_) as [images | e]; cbn [fst snd].
  - split; [| split; [exact Hold |]].
    + unfold as_Header in *. now rewrite Hold.
    + intros m [= <-]. cbn [Map.head]. split; [lia |].
      split; [apply nth_error_None; lia |].
      exists h'. split.
      * unfold as_Header. rewrite nth_error_app2, Nat.sub_diag by lia.
        reflexivity.
      * intros c. subst h'. unfold Header_add_blank, Map.provenance.
        rewrite !In_add_commentary. cbn [In]. intuition congruence.
  - split; [| split; [exact Hold |]].
    + unfold as_Header in *. now rewrite Hold.
    + discriminate.
Qed.

Lemma Map_init_keeps_caller_header_witness :
  let st := [OOther; OHeader [mkCard "OBJECT" (SStr "IP Peg") "Object name"]] in
  let out := Map.init 1 (Map.AList []) st in
  as_Header (snd out) 1
  = Some [mkCard "OBJECT" (SStr "IP Peg") "Object name"].
Proof.
  cbv zeta.
  apply (Map_init_keeps_caller_header
           [OOther; OHeader [mkCard "OBJECT" (SStr "IP Peg") "Object name"]]
           1 [mkCard "OBJECT" (SStr "IP Peg") "Object name"]
           (Map.AList [])).
  reflexivity.
Defined.

(** * The memit command line *)

Example memit_defaults :
  memit_script sample_int sample_float sample_afits sample_open string
    sample_Data_rfits
    [Arg "in"; Arg "spectra"; Arg "200"; Arg "1.0"; Arg "out"] []
  = Returned
      (Ok (mkCall
             (Map.mk 1
                [ Image.mk data2D (SFloat 40%Q) None
                    (Arr1 (floats [937 # 2]%Q)) (Arr1 (floats [150]%Q))
                    None ])
             "spectra.fits" (VInt 200) (VFloat 1%Q)
             (VFloat (binary64 (1 # 10000))) (VFloat (binary64 (2 # 10)))),
       [ OHeader [ mkCard "OBJECT" (SStr "IP Peg") "" ];
         OHeader
           (with_provenance [ mkCard "OBJECT" (SStr "IP Peg") "" ]) ]).
Proof. vm_compute. reflexivity. Qed.

(** The floats that the literals [0.2] and [1.e-4] denote. *)
Example default_rmax :
  binary64 (2 # 10) = Finite (3602879701896397 # 18014398509481984).
Proof. vm_compute. reflexivity. Qed.

Example default_tlim :
  binary64 (1 # 10000) = Finite (7378697629483821 # 73786976294838206464).
Proof. vm_compute. reflexivity. Qed.

Example memit_unknown_option :
  memit_script sample_int sample_float sample_afits sample_open string
    sample_Data_rfits
    [Arg "in"; Arg "spectra"; Opt "-x" "0.1"; Arg "200"; Arg "1.0"; Arg "out"]
    []
  = SystemExit.
Proof. reflexivity. Qed.

(** A map file without an image stops the script before the call. *)
Example memit_map_without_image :
  memit_script sample_int sample_float sample_afits sample_open string
    sample_Data_rfits
    [Arg "none"; Arg "spectra"; Arg "200"; Arg "1.0"; Arg "out"] []
  = Returned
      (Raise (DopplerError "Map.rfits: none.fits had too few HDUs"), []).
Proof. vm_compute. reflexivity. Qed.

Section MemitFacts.

Variable int_of_str : string -> option Z.
Variable float_of_str : string -> option float.
Variable afits : argval -> result string.
Variable fits_open : string -> result (list HDU).
Variable Data : Type.
Variable Data_rfits : string -> result Data.

Local Abbreviation parse := (parse_tokens int_of_str float_of_str).
Local Abbreviation conv := (convert int_of_str float_of_str).
Local Abbreviation script :=
  (memit_script int_of_str float_of_str afits fits_open Data Data_rfits).
Local Abbreviation load_from := (load afits fits_open Data Data_rfits).

Lemma ns_get_set_same k v ns : ns_get k (ns_set k v ns) = Some v.
Proof. unfold ns_get, ns_set. cbn. now rewrite String.eqb_refl. Qed.

Lemma ns_get_set_other k k' v ns :
  k' <> k -> ns_get k' (ns_set k v ns) = ns_get k' ns.
Proof.
  intros Hk. unfold ns_get, ns_set. cbn.
  apply not_eq_sym, String.eqb_neq in Hk. now rewrite Hk.
Qed.

Lemma obind_Returned {A B} (o : outcome A) (k : A -> outcome B) b :
  obind o k = Returned b -> exists a, o = Returned a /\ k a = Returned b.
Proof. destruct o; cbn; [eauto | discriminate]. Qed.

Lemma find_option_In p flag o :
  find_option p flag = Some o -> In o (optionals p) /\ o_flag o = flag.
Proof.
  unfold find_option. intros H. apply find_some in H as (Hin & Hf).
  apply String.eqb_eq in Hf. auto.
Qed.

(** A name that no later argument assigns keeps its value. *)
Lemma parse_frame p d tokens :
  forall todo ns ns',
    parse p todo ns tokens = Returned ns' ->
    ~ In d (map p_dest todo) ->
    ~ In d (map o_dest (optionals p)) ->
    ns_get d ns' = ns_get d ns.
Proof.
  induction tokens as [| [s | flag s |] rest IH]; intros todo ns ns' H Hp Ho.
  - cbn in H. destruct todo; [congruence | discriminate].
  - cbn in H. destruct todo as [| a todo']; [discriminate |].
    apply obind_Returned in H as (v & _ & H).
    rewrite (IH _ _ _ H); [| cbn in Hp; tauto | exact Ho].
    apply ns_get_set_other. cbn in Hp. intros ->. tauto.
  - cbn in H. destruct (find_option p flag) as [o |] eqn:Hfind;
      [| discriminate].
    apply obind_Returned in H as (v & _ & H).
    rewrite (IH _ _ _ H Hp Ho).
    apply ns_get_set_other. intros ->. apply Ho.
    apply in_map. now apply find_option_In in Hfind.
  - discriminate.
Qed.

(** The positional arguments fill the positionals in order. *)
Lemma parse_positionals p tokens :
  forall todo ns ns',
    parse p todo ns tokens = Returned ns' ->
    NoDup (map p_dest todo) ->
    (forall d, In d (map p_dest todo) ->
               ~ In d (map o_dest (optionals p))) ->
    Forall2 (fun a s => exists v, conv (p_type a) s = Returned v
                                  /\ ns_get (p_dest a) ns' = Some v)
      todo (args_of tokens).
Proof.
  induction tokens as [| [s | flag s |] rest IH]; intros todo ns ns' H Hnd Ho.
  - cbn in H. destruct todo; [constructor | discriminate].
  - cbn in H. destruct todo as [| a todo']; [discriminate |].
    apply obind_Returned in H as (v & Hv & H).
    cbn in Hnd. apply NoDup_cons_iff in Hnd as (Hnotin & Hnd).
    cbn [args_of]. constructor.
    + exists v. split; [exact Hv |].
      rewrite (parse_frame p (p_dest a) rest _ _ _ H Hnotin);
        [apply ns_get_set_same |].
      apply Ho. now left.
    + apply (IH _ _ _ H Hnd). intros d Hd. apply Ho. now right.
  - cbn in H. destruct (find_option p flag) as [o |]; [| discriminate].
    apply obind_Returned in H as (v & _ & H).
    cbn [args_of]. exact (IH _ _ _ H Hnd Ho).
  - discriminate.
Qed.

Lemma find_option_parser flag o :
  find_option parser flag = Some o ->
  flag_dest flag (o_dest o) /\ o_type o = AsFloat.
Proof.
  unfold find_option, parser, flag_dest. cbn [find optionals o_flag].
  destruct (String.eqb_spec "-r" flag) as [<- |];
    [intros [= <-]; cbn; auto |].
  destruct (String.eqb_spec "-t" flag) as [<- |];
    [intros [= <-]; cbn; auto | discriminate].
Qed.

(** An option takes the value of its last occurrence. *)
Lemma parse_option flag dest tokens :
  flag_dest flag dest ->
  forall todo ns ns',
    parse parser todo ns tokens = Returned ns' ->
    ~ In dest (map p_dest todo) ->
    match last_opt flag tokens with
    | None => ns_get dest ns' = ns_get dest ns
    | Some s => exists x, float_of_str s = Some x
                          /\ ns_get dest ns' = Some (VFloat x)
    end.
Proof.
  intros Hfd.
  induction tokens as [| [s | f s |] rest IH]; intros todo ns ns' H Hp.
  - cbn in H |- *. destruct todo; [congruence | discriminate].
  - cbn [parse_tokens] in H.
    destruct todo as [| a todo']; [discriminate |].
    apply obind_Returned in H as (v & _ & H).
    cbn [last_opt]. cbn in Hp.
    specialize (IH _ _ _ H (fun Hin => Hp (or_intror Hin))).
    destruct (last_opt flag rest); [exact IH |].
    rewrite IH. apply ns_get_set_other. intros ->. tauto.
  - cbn [parse_tokens] in H.
    destruct (find_option parser f) as [o |] eqn:Hfind; [| discriminate].
    apply find_option_parser in Hfind as (Hf & Hty).
    apply obind_Returned in H as (v & Hv & H).
    rewrite Hty in Hv. cbn in Hv.
    destruct (float_of_str s) as [x |] eqn:Hx; [| discriminate].
    injection Hv as <-.
    cbn [last_opt]. specialize (IH _ _ _ H Hp).
    destruct (last_opt flag rest); [exact IH |].
    rewrite IH.
    destruct (String.eqb_spec f flag) as [-> | Hne].
    + exists x. split; [exact Hx |].
      replace (o_dest o) with dest; [apply ns_get_set_same |].
      destruct Hfd as [(-> & ->) | (-> & ->)],
               Hf as [(E & ->) | (E & ->)]; congruence.
    + apply ns_get_set_other.
      destruct Hfd as [(-> & ->) | (-> & ->)],
               Hf as [(E & ->) | (E & ->)]; congruence.
  - discriminate.
Qed.

(** Only the flags of the parser get through, with values that
    convert. *)
Lemma parse_flags tokens :
  forall todo ns ns',
    parse parser todo ns tokens = Returned ns' ->
    (forall f v, In (Opt f v) tokens ->
                 (f = "-r" \/ f = "-t") /\ float_of_str v <> None)
    /\ ~ In Help tokens.
Proof.
  induction tokens as [| [s | f s |] rest IH]; intros todo ns ns' H.
  - cbn. split; [contradiction | tauto].
  - cbn [parse_tokens] in H.
    destruct todo as [| a todo']; [discriminate |].
    apply obind_Returned in H as (v & _ & H).
    destruct (IH _ _ _ H) as (Hf & Hh). split.
    + intros f v' [E | Hin]; [discriminate | eauto].
    + intros [E | Hin]; [discriminate | auto].
  - cbn [parse_tokens] in H.
    destruct (find_option parser f) as [o |] eqn:Hfind; [| discriminate].
    apply find_option_parser in Hfind as (Hfd & Hty).
    apply obind_Returned in H as (v & Hv & H).
    rewrite Hty in Hv. cbn in Hv.
    destruct (IH _ _ _ H) as (Hf & Hh). split.
    + intros f' v' [[= <- <-] | Hin]; [| eauto].
      split; [destruct Hfd as [(-> & _) | (-> & _)]; auto |].
      destruct (float_of_str s); [discriminate | discriminate Hv].
    + intros [E | Hin]; [discriminate | auto].
  - discriminate.
Qed.

(** A command line whose arguments convert is parsed. *)
Lemma parse_tokens_returns tokens :
  forall todo ns,
    Forall2 (fun a s => exists v, conv (p_type a) s = Returned v)
      todo (args_of tokens) ->
    (forall f v, In (Opt f v) tokens ->
                 (f = "-r" \/ f = "-t") /\ float_of_str v <> None) ->
    ~ In Help tokens ->
    exists ns', parse parser todo ns tokens = Returned ns'.
Proof.
  induction tokens as [| [s | f s |] rest IH]; intros todo ns Hargs Hopts Hhelp.
  - cbn [args_of] in Hargs. inversion Hargs. cbn. eauto.
  - cbn [args_of] in Hargs.
    inversion Hargs as [| a s' todo' l' (v & Hv) Hrest]; subst.
    cbn [parse_tokens]. rewrite Hv. cbn [obind].
    apply IH; auto.
    + intros f v' Hin. apply Hopts. now right.
    + intros Hin. apply Hhelp. now right.
  - cbn [args_of] in Hargs. cbn [parse_tokens].
    destruct (Hopts f s (or_introl eq_refl)) as (Hf & Hs).
    assert (Hfind : exists o, find_option parser f = Some o
                              /\ o_type o = AsFloat).
    { destruct Hf as [-> | ->]; eexists; split; reflexivity. }
    destruct Hfind as (o & -> & ->). cbn [convert].
    destruct (float_of_str s) as [x |]; [| congruence]. cbn [obind].
    apply IH; auto.
    + intros f' v' Hin. apply Hopts. now right.
    + intros Hin. apply Hhelp. now right.
  - destruct Hhelp. now left.
Qed.

Lemma positionals_distinct :
  NoDup (map p_dest (positionals parser))
  /\ (forall d, In d (map p_dest (positionals parser)) ->
                ~ In d (map o_dest (optionals parser)))
  /\ ~ In "tlim" (map p_dest (positionals parser))
  /\ ~ In "rmax" (map p_dest (positionals parser)).
Proof.
  cbn. repeat apply conj.
  - repeat constructor; cbn; intuition discriminate.
  - intros d Hd Ho. intuition (subst; discriminate).
  - intuition discriminate.
  - intuition discriminate.
Qed.

(** What the namespace of a parsed command line holds. *)
Lemma parse_args_Returned tokens args :
  parse_args int_of_str float_of_str parser tokens = Returned args ->
  exists imap data sn sc omap n x,
    accepted int_of_str float_of_str tokens imap data sn sc omap n x
    /\ ns_get "imap" args = Some (VStr imap)
    /\ ns_get "data" args = Some (VStr data)
    /\ ns_get "niter" args = Some (VInt n)
    /\ ns_get "caim" args = Some (VFloat x)
    /\ ns_get "tlim" args
       = Some (option_value float_of_str "-t"
                 (VFloat (binary64 (1 # 10000))) tokens)
    /\ ns_get "rmax" args
       = Some (option_value float_of_str "-r"
                 (VFloat (binary64 (2 # 10))) tokens).
Proof.
  unfold parse_args. intros Hparse.
  destruct positionals_distinct as (Hnd & Hdis & Hnt & Hnr).
  pose proof (parse_positionals parser tokens _ _ _ Hparse Hnd Hdis) as Hpos.
  pose proof (parse_option "-t" "tlim" tokens (or_intror (conj eq_refl eq_refl))
                _ _ _ Hparse Hnt) as Ht.
  pose proof (parse_option "-r" "rmax" tokens (or_introl (conj eq_refl eq_refl))
                _ _ _ Hparse Hnr) as Hr.
  pose proof (parse_flags tokens _ _ _ Hparse) as (Hflags & Hhelp).
  cbn [positionals parser] in Hpos.
  inversion Hpos as [| a1 s1 l1 r1 (v1 & C1 & G1) T1]; subst.
  inversion T1 as [| a2 s2 l2 r2 (v2 & C2 & G2) T2]; subst.
  inversion T2 as [| a3 s3 l3 r3 (v3 & C3 & G3) T3]; subst.
  inversion T3 as [| a4 s4 l4 r4 (v4 & C4 & G4) T4]; subst.
  inversion T4 as [| a5 s5 l5 r5 (v5 & C5 & G5) T5]; subst.
  inversion T5; subst.
  cbn in C1, C2, C3, C4, G1, G2, G3, G4.
  destruct (int_of_str s3) as [n |] eqn:Hn; [| discriminate].
  destruct (float_of_str s4) as [x |] eqn:Hx; [| discriminate].
  injection C1 as <-. injection C2 as <-. injection C3 as <-.
  injection C4 as <-.
  exists s1, s2, s3, s4, s5, n, x.
  unfold accepted, option_value. repeat apply conj; auto.
  - destruct (last_opt "-t" tokens) as [s |].
    + destruct Ht as (y & -> & ->). reflexivity.
    + rewrite Ht. reflexivity.
  - destruct (last_opt "-r" tokens) as [s |].
    + destruct Hr as (y & -> & ->). reflexivity.
    + rewrite Hr. reflexivity.
Qed.

Lemma accepted_parsed tokens imap data sn sc omap n x :
  accepted int_of_str float_of_str tokens imap data sn sc omap n x ->
  exists args,
    parse_args int_of_str float_of_str parser tokens = Returned args.
Proof.
  intros (Hargs & Hn & Hx & Hopts & Hhelp). unfold parse_args.
  apply parse_tokens_returns; auto.
  rewrite Hargs. cbn [positionals parser].
  repeat constructor; cbn [p_type convert]; eauto.
  - rewrite Hn. eauto.
  - rewrite Hx. eauto.
Qed.

Lemma accepted_unique tokens imap data sn sc omap n x
    imap' data' sn' sc' omap' n' x' :
  accepted int_of_str float_of_str tokens imap data sn sc omap n x ->
  accepted int_of_str float_of_str tokens imap' data' sn' sc' omap' n' x' ->
  imap' = imap /\ data' = data /\ n' = n /\ x' = x.
Proof.
  intros (Ha & Hn & Hx & _) (Ha' & Hn' & Hx' & _).
  rewrite Ha in Ha'. injection Ha' as <- <- <- <- <-.
  repeat split; congruence.
Qed.

(** The files are found through the two names only. *)
Lemma load_named args imap data :
  ns_get "imap" args = Some (VStr imap) ->
  ns_get "data" args = Some (VStr data) ->
  load_from args = load_from (named_files imap data).
Proof.
  intros G1 G2. unfold load, attr.
  rewrite G1, G2. reflexivity.
Qed.

(** C8: the script reaches [doppler.memit] exactly on the command lines
    that give five positional arguments, the third an integer and the
    fourth a float, and no option but [-r] and [-t] with float values,
    and when reading the two files raises nothing.  The call then gets
    the Map and the Data read from the files, [niter] converted by
    [int], [caim] converted by [float], and [tlim] and [rmax] converted
    by [float] from the last [-t] and [-r], or the floats 1e-4 and 0.2
    when the option is left out.  On every other command line the
    script leaves through [parse_args]. *)
Theorem memit_call_parameters tokens st :
  (forall imap data sn sc omap n x,
      accepted int_of_str float_of_str tokens imap data sn sc omap n x ->
      script tokens st
      = Returned
          (match load_from (named_files imap data) st with
           | (Ok (dmap, d), st') =>
               (Ok (mkCall dmap d (VInt n) (VFloat x)
                      (option_value float_of_str "-t"
                         (VFloat (binary64 (1 # 10000))) tokens)
                      (option_value float_of_str "-r"
                         (VFloat (binary64 (2 # 10))) tokens)),
                st')
           | (Raise e, st') => (Raise e, st')
           end))
  /\ ((forall imap data sn sc omap n x,
         ~ accepted int_of_str float_of_str tokens imap data sn sc omap n x) ->
      script tokens st = SystemExit).
Proof.
  unfold memit_script. split.
  - intros imap data sn sc omap n x Hacc.
    destruct (accepted_parsed _ _ _ _ _ _ _ _ Hacc) as (args & Hparse).
    rewrite Hparse. cbn [obind].
    destruct (parse_args_Returned _ _ Hparse)
      as (imap' & data' & sn' & sc' & omap' & n' & x' & Hacc'
          & G1 & G2 & G3 & G4 & Gt & Gr).
    destruct (accepted_unique _ _ _ _ _ _ _ _ _ _ _ _ _ _ _ Hacc Hacc')
      as (-> & -> & -> & ->).
    f_equal. unfold bind, lift.
    rewrite (load_named args imap data G1 G2).
    destruct (load_from (named_files imap data) st) as [[[dmap d] | e] st'];
      [| reflexivity].
    cbn [fst snd]. unfold memit_call, attr.
    rewrite G3, G4, Gt, Gr. reflexivity.
  - intros Hnot.
    destruct (parse_args int_of_str float_of_str parser tokens)
      as [args |] eqn:Hparse; [| reflexivity].
    destruct (parse_args_Returned _ _ Hparse)
      as (imap & data & sn & sc & omap & n & x & Hacc & _).
    destruct (Hnot _ _ _ _ _ _ _ Hacc).
Qed.

End MemitFacts.

Lemma memit_call_parameters_witness :
  let tokens := [Arg "in"; Arg "spectra"; Arg "200"; Arg "1.0"; Arg "out"] in
  accepted sample_int sample_float tokens "in" "spectra" "200" "1.0" "out"
    200 1%Q
  /\ exists dmap st,
       memit_script sample_int sample_float sample_afits sample_open string
         sample_Data_rfits tokens []
       = Returned
           (Ok (mkCall dmap "spectra.fits" (VInt 200) (VFloat 1%Q)
                  (VFloat (binary64 (1 # 10000)))
                  (VFloat (binary64 (2 # 10)))),
            st).
Proof.
  cbv zeta.
  assert (Hacc : accepted sample_int sample_float
                   [Arg "in"; Arg "spectra"; Arg "200"; Arg "1.0"; Arg "out"]
                   "in" "spectra" "200" "1.0" "out" 200 1%Q).
  { unfold accepted. repeat apply conj; try reflexivity.
    - intros f v [H | [H | [H | [H | [H | []]]]]]; discriminate H.
    - intros [H | [H | [H | [H | [H | []]]]]]; discriminate H. }
  split; [exact Hacc |].
  rewrite (proj1 (memit_call_parameters sample_int sample_float sample_afits
                    sample_open string sample_Data_rfits
                    [Arg "in"; Arg "spectra"; Arg "200"; Arg "1.0"; Arg "out"]
                    [])
             "in" "spectra" "200" "1.0" "out" 200%Z 1%Q Hacc).
  eexists. eexists. vm_compute. reflexivity.
Defined.

(** * More on the Image class *)

(** ** Writing any constructed Image *)

Lemma toHDU_head_one_line d vxy_ vz_ w g s :
  card_accepts vxy_ = true ->
  (ndim d = 3 -> forall v, vz_ = Some v -> card_accepts v = true) ->
  is_finite w = true -> is_finite g = true ->
  Image.toHDU_head (Image.mk d vxy_ vz_ (Arr1 [w]) (Arr1 [g]) s) []
  = (Ok tt,
     first_cards d vxy_ vz_ 1
     ++ [ mkCard "WAVE1" (SFloat w) "Central wavelength";
          mkCard "GAMMA1" (SFloat g) "Systemic velocity, km/s" ]).
Proof.
  intros Hx Hz Fw Fg.
  unfold Image.toHDU_head, first_cards, bind, lift, ret, setitem_from.
  cbn [Image.data Image.vxy Image.vz Image.wave Image.gamma Image.scale
       py_len py_iter py_item0 List.length Nat.ltb Nat.leb].
  do 2 accepted.
  destruct (Nat.eqb_spec (ndim d) 3) as [E | E]; repeat accepted;
    reflexivity.
Qed.


Lemma first_cards_vz d vxy_ vz_ n :
  first_cards d vxy_ (if ndim d =? 3 then vz_ else None) n
  = first_cards d vxy_ vz_ n.
Proof. unfold first_cards. destruct (ndim d =? 3); reflexivity. Qed.

(** The shape of a constructed Image. *)
Lemma constructed_shape img :
  constructed img ->
  exists d vxy_ vz_ ws gs s,
    img = Image.mk d vxy_ vz_ (Arr1 ws) (Arr1 gs) s
    /\ (ndim d = 2 \/ ndim d = 3)
    /\ (ndim d = 3 -> vz_ <> None)
    /\ List.length gs = List.length ws
    /\ ((exists ss, s = Some (Arr1 ss) /\ List.length ss = List.length ws)
        \/ (s = None /\ List.length ws <= 1)).
Proof.
  intros (data_ & vxy_ & wave_ & gamma_ & scale_ & vz_ & Hnew).
  apply new_Ok in Hnew
    as (d & ws & gs & s & -> & _ & Hnd & Hvz & Hg & _ & _ & Hs).
  exists d, vxy_, vz_, ws, gs, s. repeat split; auto.
  destruct Hs as [(ss & _ & Hss & ->) | (_ & Hle & ->)]; eauto.
Qed.

(** What [storable] says of an Image given by its attributes. *)
Lemma storable_mk d vxy_ vz_ ws gs s :
  storable (Image.mk d vxy_ vz_ (Arr1 ws) (Arr1 gs) s) ->
  kept_by_card vxy_
  /\ (ndim d = 3 -> forall v, vz_ = Some v -> kept_by_card v)
  /\ Forall (fun x => is_finite x = true) ws
  /\ Forall (fun x => is_finite x = true) gs
  /\ (1 < List.length ws ->
      forall ss, s = Some (Arr1 ss) -> Forall (fun x => is_finite x = true) ss).
Proof.
  intros (Kx & Kz & Fw & Fg & Fs).
  split; [exact Kx |]. split; [exact Kz |].
  split; [exact Fw |]. split; [exact Fg |].
  intros Hlt ss ->. exact (Fs Hlt _ eq_refl).
Qed.

(** The header [toHDU] writes for a constructed Image with a line, by
    what [fromHDU] finds in it. *)
Lemma toHDU_head_constructed d vxy_ vz_ ws gs s :
  List.length gs = List.length ws ->
  ((exists ss, s = Some (Arr1 ss) /\ List.length ss = List.length ws)
   \/ (s = None /\ List.length ws <= 1)) ->
  1 <= List.length ws ->
  card_accepts vxy_ = true ->
  (ndim d = 3 -> forall v, vz_ = Some v -> card_accepts v = true) ->
  Forall (fun x => is_finite x = true) ws ->
  Forall (fun x => is_finite x = true) gs ->
  (1 < List.length ws ->
   forall ss, s = Some (Arr1 ss) -> Forall (fun x => is_finite x = true) ss) ->
  exists h,
    Image.toHDU_head (Image.mk d vxy_ vz_ (Arr1 ws) (Arr1 gs) s) []
    = (Ok tt, h)
    /\ (forall k, not_line_from 1 k ->
          find (has_keyword k) h
          = find (has_keyword k) (first_cards d vxy_ vz_ (List.length ws)))
    /\ exists ss,
         Image.fromHDU_lines (1 <? List.length ws) 0 (List.length ws) h
         = Ok (ws, gs, ss)
         /\ (1 < List.length ws -> s = Some (Arr1 ss)).
Proof.
  intros Hg Hs Hn Ax Az Fw Fg Fs.
  destruct (Nat.ltb_spec 1 (List.length ws)) as [Hlt | Hle].
  - destruct Hs as [(ss & -> & Hss) | (_ & Hle)]; [| lia].
    rewrite (toHDU_head_lines _ _ _ _ _ _ Hlt Ax Az).
    destruct (lines_roundtrip ws gs ss 0
                (first_cards d vxy_ vz_ (List.length ws)) Hg Hss Fw Fg
                (Fs Hlt _ eq_refl))
      as (h & -> & Hr & Hf).
    exists h. repeat split; eauto.
  - destruct ws as [| w [| ? ?]]; cbn in Hn, Hle; try lia.
    destruct gs as [| g [| ? ?]]; try discriminate.
    apply Forall_cons_iff in Fw as [Fw _].
    apply Forall_cons_iff in Fg as [Fg _].
    rewrite toHDU_head_one_line by assumption.
    eexists. split; [reflexivity |]. split.
    + intros k Hk. apply find_app_other.
      destruct (Hk 1 (le_n _)) as (Hkw & Hkg & _).
      change (String.append "WAVE" (py_str 1)) with "WAVE1" in Hkw.
      change (String.append "GAMMA" (py_str 1)) with "GAMMA1" in Hkg.
      apply not_eq_sym, String.eqb_neq in Hkw.
      apply not_eq_sym, String.eqb_neq in Hkg.
      cbn [find]. unfold has_keyword. cbn [keyword].
      now rewrite Hkw, Hkg.
    + exists []. split; [| cbn; lia].
      cbn [Image.fromHDU_lines List.length rbind].
      unfold Image.read_float, Header_getitem.
      rewrite !find_app_first by (apply find_first_cards_line; auto).
      reflexivity.
Qed.

(** Writing and reading an Image of the shape of a constructed one,
    whose scale and [vz] may differ from [s] and [vz_] where [toHDU]
    does not look at them. *)
Lemma roundtrip_shape d vxy_ vz_ ws gs s s' vz' :
  (ndim d = 2 \/ ndim d = 3) ->
  (ndim d = 3 -> vz_ <> None) ->
  List.length gs = List.length ws ->
  1 <= List.length ws ->
  (1 < List.length ws -> s' = s) ->
  ((exists ss, s' = Some (Arr1 ss) /\ List.length ss = List.length ws)
   \/ (s' = None /\ List.length ws <= 1)) ->
  first_cards d vxy_ vz' (List.length ws)
  = first_cards d vxy_ vz_ (List.length ws) ->
  (ndim d = 3 -> forall v, vz' = Some v -> card_accepts v = true) ->
  storable (Image.mk d vxy_ vz_ (Arr1 ws) (Arr1 gs) s) ->
  (hdu <- Image.toHDU (Image.mk d vxy_ vz' (Arr1 ws) (Arr1 gs) s') ;;
   Image.fromHDU hdu)
  = Ok (Image.mk d vxy_ (if ndim d =? 3 then vz_ else None)
          (Arr1 ws) (Arr1 gs)
          (if 1 <? List.length ws then s else None)).
Proof.
  intros Hnd Hvz Hg Hn Hs' Hshape Hcards Az' Hst.
  apply storable_mk in Hst as ((Ax & Rx) & Kz & Fw & Fg & Fs).
  assert (Fs' : 1 < List.length ws ->
                forall ss, s' = Some (Arr1 ss) ->
                           Forall (fun x => is_finite x = true) ss).
  { intros Hlt ss E. apply (Fs Hlt). now rewrite <- (Hs' Hlt). }
  destruct (toHDU_head_constructed d vxy_ vz' ws gs s' Hg Hshape Hn Ax Az'
              Fw Fg Fs')
    as (h & Hhead & Hf & ss & Hr & Hss).
  unfold Image.toHDU. rewrite Hhead. cbn [rbind Image.data].
  apply fromHDU_written; auto.
  - destruct (Nat.eqb_spec (ndim d) 3); [auto | congruence].
  - intros E. now rewrite E.
  - intros v. destruct (Nat.eqb_spec (ndim d) 3) as [E |]; [| discriminate].
    intros Hv. apply (Kz E v Hv).
  - destruct (Nat.ltb_spec 1 (List.length ws)) as [Hlt | Hle].
    + rewrite <- (Hs' Hlt), (Hss Hlt). exists ss.
      repeat split; auto.
      destruct Hshape as [(ss' & E & Hlen) | (E & ?)]; [| lia].
      rewrite (Hss Hlt) in E. injection E as ->. exact Hlen.
    + split; [exact Hle |].
      assert (E : ss = []).
      { destruct ws as [| w [| ? ?]]; cbn in Hn, Hle, Hr; try lia.
        apply rbind_Ok in Hr as (? & _ & Hr).
        apply rbind_Ok in Hr as (? & _ & Hr).
        cbn [rbind] in Hr. now injection Hr as _ _ <-. }
      now rewrite <- E.
  - intros k Hk. rewrite first_cards_vz, (Hf k Hk). now rewrite Hcards.
Qed.


(** X1: writing a constructed Image whose [vxy], [vz] and line numbers
    the cards take and give back, with [toHDU], and reading it with
    [fromHDU] gives the Image without the attributes [toHDU] leaves out,
    and writing and reading that Image gives it back unchanged. *)
Theorem roundtrip_as_written img :
  constructed img ->
  1 <= nlines img ->
  storable img ->
  (hdu <- Image.toHDU img ;; Image.fromHDU hdu) = Ok (as_written img)
  /\ (hdu <- Image.toHDU (as_written img) ;; Image.fromHDU hdu)
     = Ok (as_written img).
Proof.
  intros Hc Hn Hst.
  apply constructed_shape in Hc
    as (d & vxy_ & vz_ & ws & gs & s & -> & Hnd & Hvz & Hg & Hs).
  unfold nlines in Hn. cbn in Hn.
  unfold as_written, nlines.
  cbn [Image.data Image.vxy Image.vz Image.wave Image.gamma Image.scale py_len].
  assert (Az : ndim d = 3 -> forall v, vz_ = Some v -> card_accepts v = true).
  { intros E v Hv. apply storable_mk in Hst as (_ & Kz & _).
    apply (Kz E v Hv). }
  split.
  - now apply roundtrip_shape.
  - apply roundtrip_shape; auto.
    + intros Hlt. apply Nat.ltb_lt in Hlt. now rewrite Hlt.
    + destruct (Nat.ltb_spec 1 (List.length ws)); [exact Hs | right; auto].
    + apply first_cards_vz.
    + intros E. apply Nat.eqb_eq in E. rewrite E.
      apply Az. now apply Nat.eqb_eq.
Qed.

Lemma roundtrip_as_written_witness :
  let img := Image.mk data2D (SFloat 40%Q) (Some (SFloat 25%Q))
               (Arr1 (floats [1945 # 4]%Q)) (Arr1 (floats [100]%Q))
               (Some (Arr1 (floats [1]%Q))) in
  storable img
  /\ (hdu <- Image.toHDU img ;; Image.fromHDU hdu)
     = Ok (Image.mk data2D (SFloat 40%Q) None
             (Arr1 (floats [1945 # 4]%Q)) (Arr1 (floats [100]%Q)) None).
Proof.
  cbv zeta.
  assert (Hst : storable
                  (Image.mk data2D (SFloat 40%Q) (Some (SFloat 25%Q))
                     (Arr1 (floats [1945 # 4]%Q)) (Arr1 (floats [100]%Q))
                     (Some (Arr1 (floats [1]%Q))))).
  { unfold storable, kept_by_card, all_finite, nlines, floats.
    cbn [Image.data Image.vxy Image.vz Image.wave Image.gamma Image.scale
         items map py_len List.length].
    split; [split; reflexivity |].
    split; [intros E; discriminate E |].
    split; [repeat constructor |].
    split; [repeat constructor |].
    intros Hlt. lia. }
  split; [exact Hst |].
  apply (proj1 (roundtrip_as_written
                  (Image.mk data2D (SFloat 40%Q) (Some (SFloat 25%Q))
                     (Arr1 (floats [1945 # 4]%Q)) (Arr1 (floats [100]%Q))
                     (Some (Arr1 (floats [1]%Q))))
                  (ex_intro _ (PyArray data2D)
                     (ex_intro _ (SFloat 40%Q)
                        (ex_intro _ (PyArray (Arr1 (floats [1945 # 4]%Q)))
                           (ex_intro _ (PyArray (Arr1 (floats [100]%Q)))
                              (ex_intro _ (PyArray (Arr1 (floats [1]%Q)))
                                 (ex_intro _ (Some (SFloat 25%Q))
                                    eq_refl))))))
                  (le_n 1) Hst)).
Defined.

(** A wavelength that is not a number, and a [vxy] that no card takes. *)
Example toHDU_nan_wave :
  Image.new (PyArray data2D) (SFloat 40%Q) (PyScalar (SFloat NaN))
    (PyScalar (SFloat 100%Q)) PyNone None
  = Ok (Image.mk data2D (SFloat 40%Q) None
          (Arr1 [NaN]) (Arr1 (floats [100]%Q)) None)
  /\ Image.toHDU (Image.mk data2D (SFloat 40%Q) None
                    (Arr1 [NaN]) (Arr1 (floats [100]%Q)) None)
     = Raise ValueError.
Proof. split; reflexivity. Qed.

Example toHDU_infinite_vxy_no_line :
  Image.toHDU (Image.mk data2D (SFloat (Inf false)) None (Arr1 []) (Arr1 [])
                 None)
  = Raise ValueError.
Proof. reflexivity. Qed.

(** A text [vxy] that ends in a blank comes back without it. *)
Example vxy_text_loses_blanks :
  (hdu <- Image.toHDU (Image.mk data2D (SStr "40 ") None
                         (Arr1 (floats [1945 # 4]%Q))
                         (Arr1 (floats [100]%Q)) None) ;;
   Image.fromHDU hdu)
  = Ok (Image.mk data2D (SStr "40") None
          (Arr1 (floats [1945 # 4]%Q)) (Arr1 (floats [100]%Q)) None).
Proof. reflexivity. Qed.




(** X3: a constructed Image is the Image its own attributes construct:
    calling the constructor with [data], [vxy], [wave], [gamma], [scale]
    and [vz] of the Image succeeds and returns an equal Image. *)
Theorem new_from_attributes img :
  constructed img ->
  Image.new (PyArray (Image.data img)) (Image.vxy img)
    (PyArray (Image.wave img)) (PyArray (Image.gamma img))
    (optional_array (Image.scale img)) (Image.vz img)
  = Ok img.
Proof.
  intros Hc.
  apply constructed_shape in Hc
    as (d & vxy_ & vz_ & ws & gs & s & -> & Hnd & Hvz & Hg & Hs).
  cbn [Image.data Image.vxy Image.vz Image.wave Image.gamma Image.scale].
  apply (new_arrays d vxy_ ws gs s vz_); auto.
  destruct Hs as [(ss & -> & Hss) | (-> & Hle)]; eauto.
Qed.

Lemma new_from_attributes_witness :
  Image.new (PyArray data3D) (SFloat 40%Q)
    (PyArray (Arr1 (floats [1945 # 4; 434]%Q))) (PyArray (Arr1 (floats [100; 100]%Q)))
    (PyArray (Arr1 (floats [1; 1 # 2]%Q))) (Some (SFloat 25%Q))
  = Ok (Image.mk data3D (SFloat 40%Q) (Some (SFloat 25%Q))
          (Arr1 (floats [1945 # 4; 434]%Q)) (Arr1 (floats [100; 100]%Q))
          (Some (Arr1 (floats [1; 1 # 2]%Q)))).
Proof.
  apply (new_from_attributes
           (Image.mk data3D (SFloat 40%Q) (Some (SFloat 25%Q))
              (Arr1 (floats [1945 # 4; 434]%Q)) (Arr1 (floats [100; 100]%Q))
              (Some (Arr1 (floats [1; 1 # 2]%Q))))).
  exists (PyArray data3D), (SFloat 40%Q),
    (PyArray (Arr1 (floats [1945 # 4; 434]%Q))), (PyArray (Arr1 (floats [100; 100]%Q))),
    (PyArray (Arr1 (floats [1; 1 # 2]%Q))), (Some (SFloat 25%Q)).
  reflexivity.
Defined.

(** X4: a [scale] that is not a numpy array counts as no scale: the
    constructor returns or raises exactly what it does for [None]. *)
Theorem scale_not_array_as_None data_ vxy_ wave_ gamma_ scale_ vz_ :
  is_array scale_ = false ->
  Image.new data_ vxy_ wave_ gamma_ scale_ vz_
  = Image.new data_ vxy_ wave_ gamma_ PyNone vz_.
Proof.
  intros Hs. rewrite !new_eq. unfold new_direct.
  destruct scale_; [reflexivity | reflexivity | discriminate].
Qed.

Lemma scale_not_array_as_None_witness :
  Image.new (PyArray data2D) (SFloat 40%Q) (PyScalar (SFloat (1945 # 4)%Q))
    (PyScalar (SFloat 100%Q)) (PyScalar (SFloat 2%Q)) None
  = Image.new (PyArray data2D) (SFloat 40%Q) (PyScalar (SFloat (1945 # 4)%Q))
      (PyScalar (SFloat 100%Q)) PyNone None.
Proof.
  apply (scale_not_array_as_None (PyArray data2D) (SFloat 40%Q)
           (PyScalar (SFloat (1945 # 4)%Q)) (PyScalar (SFloat 100%Q))
           (PyScalar (SFloat 2%Q)) None).
  reflexivity.
Defined.

(** ** Reading any HDU *)

Lemma fromHDU_lines_spec b h count :
  forall s ws gs ss,
    Image.fromHDU_lines b s count h = Ok (ws, gs, ss) ->
    List.length ws = count /\ List.length gs = count
    /\ List.length ss = (if b then count else 0)
    /\ forall i, i < count ->
         Image.read_float (String.append "WAVE" (py_str (s + i + 1))) h
         = Ok (nth i ws 0%Q)
         /\ Image.read_float (String.append "GAMMA" (py_str (s + i + 1))) h
            = Ok (nth i gs 0%Q)
         /\ (b = true ->
             Image.read_float (String.append "SCALE" (py_str (s + i + 1))) h
             = Ok (nth i ss 0%Q)).
Proof.
  induction count as [| count IH]; intros s ws gs ss H.
  - cbn in H. injection H as <- <- <-. destruct b; repeat split; lia.
  - cbn [Image.fromHDU_lines] in H.
    apply rbind_Ok in H as (w & Hw & H).
    apply rbind_Ok in H as (g & Hg & H).
    apply rbind_Ok in H as (sc & Hsc & H).
    apply rbind_Ok in H as ([[ws' gs'] ss'] & Hr & H).
    injection H as <- <- <-.
    destruct (IH _ _ _ _ Hr) as (Lw & Lg & Ls & Hi).
    assert (Hsc' : if b
                   then exists x, sc = [x]
                        /\ Image.read_float
                             (String.append "SCALE" (py_str (s + 1))) h = Ok x
                   else sc = []).
    { destruct b.
      - apply rbind_Ok in Hsc as (x & Hx & [= <-]). eauto.
      - now injection Hsc as <-. }
    repeat split.
    + cbn. lia.
    + cbn. lia.
    + destruct b.
      * destruct Hsc' as (x & -> & _). cbn. lia.
      * subst sc. cbn. exact Ls.
    + destruct i as [| i].
      * now rewrite Nat.add_0_r.
      * replace (s + S i + 1) with (S s + i + 1) by lia.
        apply Hi. lia.
    + destruct i as [| i].
      * now rewrite Nat.add_0_r.
      * replace (s + S i + 1) with (S s + i + 1) by lia.
        apply Hi. lia.
    + intros ->. destruct Hsc' as (x & -> & Hx).
      destruct i as [| i].
      * now rewrite Nat.add_0_r.
      * replace (s + S i + 1) with (S s + i + 1) by lia.
        apply Hi; [lia | reflexivity].
Qed.

Lemma fromHDU_inv hdu img :
  Image.fromHDU hdu = Ok img ->
  exists vxy_ nd z ws gs ss,
    Header_getitem "VXY" (hdu_header hdu) = Ok vxy_
    /\ py_ndim (hdu_data hdu) = Ok nd
    /\ Header_getitem "NWAVE" (hdu_header hdu) = Ok (SInt z)
    /\ (0 <= z)%Z
    /\ Image.fromHDU_lines (1 <? Z.to_nat z) 0 (Z.to_nat z) (hdu_header hdu)
       = Ok (ws, gs, ss)
    /\ exists vz_,
         Image.new (hdu_data hdu) vxy_ (PyArray (Arr1 ws)) (PyArray (Arr1 gs))
           (if 1 <? Z.to_nat z then PyArray (Arr1 ss) else PyNone) vz_
         = Ok img.
Proof.
  unfold Image.fromHDU.
  destruct (_ || _); [discriminate |].
  intros H.
  apply rbind_Ok in H as (vxy_ & Hvxy & H).
  apply rbind_Ok in H as (nd & Hnd & H).
  apply rbind_Ok in H as (vz_ & _ & H).
  apply rbind_Ok in H as (nwave & Hnwave & H).
  apply rbind_Ok in H as (n & Hn & H).
  apply rbind_Ok in H as ([[ws gs] ss] & Hr & H).
  destruct nwave as [z | |]; cbn in Hn; try discriminate.
  destruct (Z.ltb_spec z 0); [discriminate |]. injection Hn as <-.
  exists vxy_, nd, z, ws, gs, ss. repeat split; eauto.
Qed.

(** X5: an Image that [fromHDU] returns has as many [wave] and [gamma]
    entries as the NWAVE card says, carries scale factors exactly when
    NWAVE is more than one, and has the data of the HDU and the value of
    the VXY card. *)
Theorem fromHDU_line_count hdu img :
  Image.fromHDU hdu = Ok img ->
  exists z,
    Header_getitem "NWAVE" (hdu_header hdu) = Ok (SInt z)
    /\ (0 <= z)%Z
    /\ py_len (Image.wave img) = Ok (Z.to_nat z)
    /\ py_len (Image.gamma img) = Ok (Z.to_nat z)
    /\ (Image.scale img <> None <-> (1 < z)%Z)
    /\ Header_getitem "VXY" (hdu_header hdu) = Ok (Image.vxy img)
    /\ hdu_data hdu = PyArray (Image.data img).
Proof.
  intros H.
  apply fromHDU_inv in H
    as (vxy_ & nd & z & ws & gs & ss & Hvxy & _ & Hnwave & Hz & Hr & vz_ & Hnew).
  apply fromHDU_lines_spec in Hr as (Lw & Lg & _ & _).
  apply new_Ok in Hnew
    as (d & ws' & gs' & s & -> & Hd & _ & _ & _ & Hw & Hg & Hs).
  exists z. cbn [Image.wave Image.gamma Image.scale Image.vxy Image.data py_len].
  destruct Hw as [[= <-] | (Hna & _)]; [| discriminate].
  destruct Hg as [[= <-] | (Hna & _)]; [| discriminate].
  rewrite Lw, Lg. repeat split; auto.
  - intros Hsome. destruct (Nat.ltb_spec 1 (Z.to_nat z)); [lia |].
    destruct Hs as [(? & E & _) | (_ & _ & ->)]; [discriminate | congruence].
  - intros Hlt. destruct (Nat.ltb_spec 1 (Z.to_nat z)); [| lia].
    destruct Hs as [(? & _ & _ & ->) | (Hna & _)]; [discriminate | discriminate].
Qed.

Lemma fromHDU_line_count_witness :
  exists z,
    Header_getitem "NWAVE"
      [ mkCard "VXY" (SFloat 40%Q) "";
        mkCard "NWAVE" (SInt 1) "";
        mkCard "WAVE1" (SFloat (1945 # 4)%Q) "";
        mkCard "GAMMA1" (SFloat 100%Q) "" ] = Ok (SInt z)
    /\ (0 <= z)%Z
    /\ py_len (Arr1 (floats [1945 # 4]%Q)) = Ok (Z.to_nat z)
    /\ py_len (Arr1 (floats [100]%Q)) = Ok (Z.to_nat z)
    /\ (@None ndarray <> None <-> (1 < z)%Z)
    /\ Header_getitem "VXY"
         [ mkCard "VXY" (SFloat 40%Q) "";
           mkCard "NWAVE" (SInt 1) "";
           mkCard "WAVE1" (SFloat (1945 # 4)%Q) "";
           mkCard "GAMMA1" (SFloat 100%Q) "" ] = Ok (SFloat 40%Q)
    /\ PyArray data2D = PyArray data2D.
Proof.
  apply (fromHDU_line_count
           (mkHDU (PyArray data2D)
              [ mkCard "VXY" (SFloat 40%Q) "";
                mkCard "NWAVE" (SInt 1) "";
                mkCard "WAVE1" (SFloat (1945 # 4)%Q) "";
                mkCard "GAMMA1" (SFloat 100%Q) "" ])
           (Image.mk data2D (SFloat 40%Q) None
              (Arr1 (floats [1945 # 4]%Q)) (Arr1 (floats [100]%Q)) None)).
  reflexivity.
Defined.

(** X6: every entry of [wave], [gamma] and [scale] of an Image that
    [fromHDU] returns is the float that the value of the card WAVEn,
    GAMMAn or SCALEn of its line converts to, lines numbered from 1: an
    integer is rounded to the nearest float and a text is read as a
    number.  All these cards are in the header. *)
Theorem fromHDU_reads_line_cards hdu img ws gs i :
  Image.fromHDU hdu = Ok img ->
  Image.wave img = Arr1 ws ->
  Image.gamma img = Arr1 gs ->
  i < List.length ws ->
  Image.read_float (String.append "WAVE" (py_str (i + 1))) (hdu_header hdu)
  = Ok (nth i ws 0%Q)
  /\ Image.read_float (String.append "GAMMA" (py_str (i + 1))) (hdu_header hdu)
     = Ok (nth i gs 0%Q)
  /\ forall ss,
       Image.scale img = Some (Arr1 ss) ->
       Image.read_float (String.append "SCALE" (py_str (i + 1)))
         (hdu_header hdu)
       = Ok (nth i ss 0%Q).
Proof.
  intros H Hw Hg Hi.
  apply fromHDU_inv in H
    as (vxy_ & nd & z & ws' & gs' & ss' & _ & _ & _ & Hz & Hr & vz_ & Hnew).
  apply fromHDU_lines_spec in Hr as (Lw & Lg & _ & Hread).
  apply new_Ok in Hnew
    as (d & ws'' & gs'' & s & -> & _ & _ & _ & _ & Hw' & Hg' & Hs).
  cbn [Image.wave Image.gamma Image.scale] in *.
  injection Hw as ->. injection Hg as ->.
  destruct Hw' as [[= <-] | (Hna & _)]; [| discriminate].
  destruct Hg' as [[= <-] | (Hna & _)]; [| discriminate].
  rewrite Lw in Hi. destruct (Hread i Hi) as (Rw & Rg & Rs).
  cbn [Nat.add] in Rw, Rg, Rs. repeat split; auto.
  intros ss ->.
  destruct Hs as [(ss0 & Hsc & _ & [= <-]) | (_ & _ & E)]; [| discriminate].
  destruct (1 <? Z.to_nat z); [| discriminate].
  injection Hsc as <-. now apply Rs.
Qed.

Lemma fromHDU_reads_line_cards_witness :
  let h := [ mkCard "VXY" (SFloat 40%Q) "";
             mkCard "NWAVE" (SInt 2) "";
             mkCard "WAVE1" (SFloat (1945 # 4)%Q) "";
             mkCard "GAMMA1" (SFloat 100%Q) "";
             mkCard "SCALE1" (SFloat 1%Q) "";
             mkCard "WAVE2" (SInt 9007199254740993) "";
             mkCard "GAMMA2" (SStr "1e2") "";
             mkCard "SCALE2" (SFloat (1 # 2)%Q) "" ] in
  Image.read_float "WAVE2" h = Ok (Finite 9007199254740992%Q)
  /\ Image.read_float "GAMMA2" h = Ok (Finite 100%Q).
Proof.
  cbv zeta.
  pose proof (fromHDU_reads_line_cards
                (mkHDU (PyArray data2D)
                   [ mkCard "VXY" (SFloat 40%Q) "";
                     mkCard "NWAVE" (SInt 2) "";
                     mkCard "WAVE1" (SFloat (1945 # 4)%Q) "";
                     mkCard "GAMMA1" (SFloat 100%Q) "";
                     mkCard "SCALE1" (SFloat 1%Q) "";
                     mkCard "WAVE2" (SInt 9007199254740993) "";
                     mkCard "GAMMA2" (SStr "1e2") "";
                     mkCard "SCALE2" (SFloat (1 # 2)%Q) "" ])
                (Image.mk data2D (SFloat 40%Q) None
                   (Arr1 (floats [1945 # 4; 9007199254740992]%Q))
                   (Arr1 (floats [100; 100]%Q))
                   (Some (Arr1 (floats [1; 1 # 2]%Q))))
                (floats [1945 # 4; 9007199254740992]%Q)
                (floats [100; 100]%Q) 1
                eq_refl eq_refl eq_refl (le_n 2)) as (Hw & Hg & _).
  split; [exact Hw | exact Hg].
Defined.

(** * More on the Map class *)

Lemma check_elements_spec l :
  forall j,
    match first_not_image l with
    | None => Map.check_elements j l = Ok (images_of l)
              /\ List.length (images_of l) = List.length l
    | Some i =>
        Map.check_elements j l
        = Raise (DopplerError
                   (String.append "Map.__init__: element "
                      (String.append (py_str (j + i))
                         " of map is not an Image.")))
    end.
Proof.
  induction l as [| [im |] l IH]; intros j; cbn [first_not_image].
  - split; reflexivity.
  - specialize (IH (S j)). cbn [Map.check_elements images_of].
    destruct (first_not_image l) as [i |].
    + rewrite IH. cbn [rbind]. now rewrite Nat.add_succ_r.
    + destruct IH as (-> & Hlen). cbn [rbind List.length]. auto.
  - cbn [Map.check_elements]. now rewrite Nat.add_0_r.
Qed.

(** What [Map.__init__] does to the store and returns, by its checks. *)
Lemma Map_init_run st head_ h data_ :
  as_Header st head_ = Some h ->
  Map.init head_ data_ st
  = (match Map.check_data data_ with
     | Ok images => Ok (Map.mk (List.length st) images)
     | Raise e => Raise e
     end,
     st ++ [OHeader (with_provenance h)]).
Proof.
  intros Hh. unfold Map.init, bind, alloc, mutate, lift, ret.
  rewrite Hh, !store_update_new. unfold with_provenance.
  destruct (Map.check_data data_); reflexivity.
Qed.

Lemma Map_init_not_Header st head_ data_ :
  as_Header st head_ = None ->
  Map.init head_ data_ st
  = (Raise (DopplerError "Map.__init__: head must be a fits.Header object"),
     st).
Proof. intros Hh. unfold Map.init, bind. now rewrite Hh. Qed.

(** X7: [Map.__init__] returns a Map exactly when [head] is a Header and
    [data] is one Image or an iterable whose elements are all Images.
    Iterating over the [data] of the Map then gives the Images of a
    container in order (none for an empty one), the one Image, and
    nothing for an iterator, which the check has used up. *)
Theorem Map_init_succeeds_iff st head_ data_ :
  ((exists m, fst (Map.init head_ data_ st) = Ok m)
   <-> as_Header st head_ <> None /\ images_only data_)
  /\ forall m,
       fst (Map.init head_ data_ st) = Ok m ->
       match data_ with
       | Map.AList l => Map.data m = images_of l
                        /\ List.length (Map.data m) = List.length l
       | Map.AnIterator l => Map.data m = []
       | Map.OneImage im => Map.data m = [im]
       | Map.NotIterable => False
       end.
Proof.
  destruct (as_Header st head_) as [h |] eqn:Hh.
  - rewrite (Map_init_run _ _ _ data_ Hh). cbn [fst].
    destruct data_ as [l | l | im |]; cbn [Map.check_data images_only].
    + pose proof (check_elements_spec l 0) as Hl.
      destruct (first_not_image l) as [i |].
      * rewrite Hl. split.
        -- split; [intros (m & E); discriminate | intros (_ & E); discriminate].
        -- intros m E. discriminate.
      * destruct Hl as (-> & Hlen). split.
        -- split; [intros _; split; [discriminate | reflexivity] | eauto].
        -- intros m [= <-]. auto.
    + pose proof (check_elements_spec l 0) as Hl.
      destruct (first_not_image l) as [i |].
      * rewrite Hl. cbn [rbind]. split.
        -- split; [intros (m & E); discriminate | intros (_ & E); discriminate].
        -- intros m E. discriminate.
      * destruct Hl as (-> & Hlen). cbn [rbind]. split.
        -- split; [intros _; split; [discriminate | reflexivity] | eauto].
        -- intros m [= <-]. reflexivity.
    + split.
      * split; [intros _; split; [discriminate | exact I] | eauto].
      * intros m [= <-]. reflexivity.
    + split.
      * split; [intros (m & E); discriminate | intros (_ & []) ].
      * intros m E. discriminate.
  - rewrite (Map_init_not_Header _ _ data_ Hh). cbn [fst]. split.
    + split; [intros (m & E); discriminate | intros (E & _); congruence].
    + intros m E. discriminate.
Qed.

Lemma Map_init_succeeds_iff_witness :
  let img := Image.mk data2D (SFloat 40%Q) None
               (Arr1 (floats [937 # 2]%Q)) (Arr1 (floats [150]%Q)) None in
  exists m,
    fst (Map.init 0 (Map.AnIterator [Map.AnImage img]) [OHeader []]) = Ok m
    /\ Map.data m = [].
Proof.
  cbv zeta.
  destruct (Map_init_succeeds_iff [OHeader []] 0
              (Map.AnIterator
                 [Map.AnImage
                    (Image.mk data2D (SFloat 40%Q) None
                       (Arr1 (floats [937 # 2]%Q)) (Arr1 (floats [150]%Q))
                       None)]))
    as (Hiff & Hdata).
  destruct (proj2 Hiff) as (m & Hm).
  - split; [discriminate | reflexivity].
  - exists m. split; [exact Hm | exact (Hdata m Hm)].
Defined.

(** X8: given a Header and a list with an element that is not an Image,
    [Map.__init__] raises the DopplerError that names the position of the
    first such element. *)
Theorem Map_init_first_bad_element st head_ h l i :
  as_Header st head_ = Some h ->
  first_not_image l = Some i ->
  fst (Map.init head_ (Map.AList l) st)
  = Raise (DopplerError
             (String.append "Map.__init__: element "
                (String.append (py_str i) " of map is not an Image."))).
Proof.
  intros Hh Hi. rewrite (Map_init_run _ _ _ _ Hh). cbn [fst Map.check_data].
  pose proof (check_elements_spec l 0) as Hl. rewrite Hi in Hl.
  now rewrite Hl.
Qed.

Lemma Map_init_first_bad_element_witness :
  fst (Map.init 0
         (Map.AList
            [ Map.AnImage (Image.mk data2D (SFloat 40%Q) None
                             (Arr1 (floats [1945 # 4]%Q)) (Arr1 (floats [100]%Q)) None);
              Map.NotAnImage; Map.NotAnImage ])
         [OHeader []])
  = Raise (DopplerError "Map.__init__: element 1 of map is not an Image.").
Proof.
  apply (Map_init_first_bad_element [OHeader []] 0 []
           [ Map.AnImage (Image.mk data2D (SFloat 40%Q) None
                            (Arr1 (floats [1945 # 4]%Q)) (Arr1 (floats [100]%Q)) None);
             Map.NotAnImage; Map.NotAnImage ] 1).
  - reflexivity.
  - reflexivity.
Defined.

Lemma find_insert_after_last k k' card h :
  keyword card = k' -> k <> k' ->
  find (has_keyword k) (insert_after_last k' card h) = find (has_keyword k) h.
Proof.
  intros Hc Hk.
  assert (Hno : has_keyword k card = false)
    by (apply has_keyword_false; congruence).
  induction h as [| x t IH]; cbn [insert_after_last find].
  - now rewrite Hno.
  - destruct (Header_contains k' t); cbn [find].
    + now rewrite IH.
    + now rewrite Hno.
Qed.

Lemma length_insert_after_last k card h :
  List.length (insert_after_last k card h) = S (List.length h).
Proof.
  induction h as [| x t IH]; cbn [insert_after_last]; [reflexivity |].
  destruct (Header_contains k t); cbn [List.length]; auto.
Qed.

Lemma find_add_commentary k k' text h :
  k <> k' ->
  find (has_keyword k) (Header_add_commentary k' text h)
  = find (has_keyword k) h.
Proof.
  intros Hk. unfold Header_add_commentary.
  destruct (Header_contains k' h).
  - now apply find_insert_after_last.
  - apply find_app_other. cbn [find].
    assert (Hno : has_keyword k (mkCard k' (SStr text) "") = false)
      by (apply has_keyword_false; cbn; congruence).
    now rewrite Hno.
Qed.

Lemma length_add_commentary k text h :
  List.length (Header_add_commentary k text h) = S (List.length h).
Proof.
  unfold Header_add_commentary. destruct (Header_contains k h).
  - apply length_insert_after_last.
  - rewrite length_app. cbn. lia.
Qed.

(** X9: the header of a new Map has four cards more than the caller's,
    and every keyword that is not blank, COMMENT or HISTORY is found in
    it, or missing from it, with the value it has in the caller's. *)
Theorem Map_init_keeps_keywords st head_ h data_ m :
  as_Header st head_ = Some h ->
  fst (Map.init head_ data_ st) = Ok m ->
  exists h',
    as_Header (snd (Map.init head_ data_ st)) (Map.head m) = Some h'
    /\ List.length h' = List.length h + 4
    /\ forall k,
         k <> "" -> k <> "COMMENT" -> k <> "HISTORY" ->
         Header_getitem k h' = Header_getitem k h
         /\ Header_contains k h' = Header_contains k h.
Proof.
  intros Hh. rewrite (Map_init_run _ _ _ data_ Hh). cbn [fst snd].
  destruct (Map.check_data data_) as [images |]; [| discriminate].
  intros [= <-]. cbn [Map.head].
  exists (with_provenance h). split; [| split].
  - unfold as_Header. rewrite nth_error_app2, Nat.sub_diag by lia.
    reflexivity.
  - unfold with_provenance, Header_add_blank.
    rewrite !length_add_commentary. lia.
  - intros k H1 H2 H3.
    assert (Hf : find (has_keyword k) (with_provenance h)
                 = find (has_keyword k) h).
    { unfold with_provenance, Header_add_blank.
      now rewrite !find_add_commentary. }
    unfold Header_getitem. rewrite !contains_find, Hf. auto.
Qed.

Lemma Map_init_keeps_keywords_witness :
  exists h',
    as_Header
      (snd (Map.init 0 (Map.AList [])
              [OHeader [mkCard "OBJECT" (SStr "IP Peg") "Object name"]]))
      1 = Some h'
    /\ List.length h' = 1 + 4
    /\ forall k,
         k <> "" -> k <> "COMMENT" -> k <> "HISTORY" ->
         Header_getitem k h'
         = Header_getitem k [mkCard "OBJECT" (SStr "IP Peg") "Object name"]
         /\ Header_contains k h'
            = Header_contains k
                [mkCard "OBJECT" (SStr "IP Peg") "Object name"].
Proof.
  apply (Map_init_keeps_keywords
           [OHeader [mkCard "OBJECT" (SStr "IP Peg") "Object name"]] 0
           [mkCard "OBJECT" (SStr "IP Peg") "Object name"]
           (Map.AList []) (Map.mk 1 [])).
  - reflexivity.
  - reflexivity.
Defined.

(** ** Writing and reading a Map *)

Lemma collect_Ok {A B} (f : A -> result B) l :
  forall l', collect f l = Ok l' -> Forall2 (fun x y => f x = Ok y) l l'.
Proof.
  induction l as [| x l IH]; intros l' H; cbn [collect] in H.
  - injection H as <-. constructor.
  - apply rbind_Ok in H as (y & Hy & H).
    apply rbind_Ok in H as (ys & Hys & [= <-]).
    constructor; auto.
Qed.

Lemma check_elements_images l :
  forall j, Map.check_elements j (map Map.AnImage l) = Ok l.
Proof.
  induction l as [| im l IH]; intros j; cbn [map Map.check_elements];
    [reflexivity |].
  now rewrite IH.
Qed.


Lemma wfits_run st m h :
  as_Header st (Map.head m) = Some h ->
  Map.wfits m st
  = (match collect Image.toHDU (Map.data m) with
     | Ok hdus => Ok (mkHDU PyNone h :: hdus)
     | Raise e => Raise e
     end, st).
Proof.
  intros Hh. unfold Map.wfits, bind, lift, ret. rewrite Hh.
  destruct (collect Image.toHDU (Map.data m)); reflexivity.
Qed.

Lemma rfits_run fname primary x extensions st :
  Map.rfits fname (primary :: x :: extensions) st
  = match collect Image.fromHDU (x :: extensions) with
    | Ok images =>
        (Ok (Map.mk (S (List.length st)) images),
         st ++ [OHeader (hdu_header primary);
                OHeader (with_provenance (hdu_header primary))])
    | Raise e => (Raise e, st ++ [OHeader (hdu_header primary)])
    end.
Proof.
  unfold Map.rfits. cbn [List.length Nat.ltb Nat.leb].
  unfold bind at 1, alloc. unfold bind at 1, lift.
  destruct (collect Image.fromHDU (x :: extensions)) as [images | e];
    [| reflexivity].
  rewrite (Map_init_run _ _ (hdu_header primary)).
  - cbn [Map.check_data]. rewrite check_elements_images.
    rewrite length_app, <- app_assoc. cbn [List.length app].
    now rewrite Nat.add_1_r.
  - unfold as_Header. rewrite nth_error_app2, Nat.sub_diag by lia.
    reflexivity.
Qed.



(** X11: [rfits] returns a Map only for a list of at least two HDUs; the
    Map's Images are what [fromHDU] makes of the HDUs after the first, in
    order, and its header is a new object with the cards of the first
    HDU and the four provenance cards. *)
Theorem rfits_returns fname hdul st m :
  fst (Map.rfits fname hdul st) = Ok m ->
  exists primary extensions,
    hdul = primary :: extensions
    /\ 1 <= List.length extensions
    /\ Forall2 (fun hdu img => Image.fromHDU hdu = Ok img)
         extensions (Map.data m)
    /\ nth_error st (Map.head m) = None
    /\ as_Header (snd (Map.rfits fname hdul st)) (Map.head m)
       = Some (with_provenance (hdu_header primary)).
Proof.
  destruct hdul as [| primary [| x extensions]]; try discriminate.
  rewrite rfits_run.
  destruct (collect Image.fromHDU (x :: extensions)) as [images | e] eqn:Hc;
    [| discriminate].
  cbn [fst snd]. intros [= <-]. cbn [Map.head Map.data].
  exists primary, (x :: extensions). repeat split.
  - cbn. lia.
  - now apply collect_Ok.
  - apply nth_error_None. lia.
  - unfold as_Header.
    rewrite nth_error_app2 by lia.
    replace (S (List.length st) - List.length st) with 1 by lia.
    reflexivity.
Qed.

Lemma rfits_returns_witness :
  exists primary extensions,
    [ mkHDU PyNone [];
      mkHDU (PyArray data2D)
        [ mkCard "VXY" (SFloat 40%Q) "";
          mkCard "NWAVE" (SInt 1) "";
          mkCard "WAVE1" (SFloat (1945 # 4)%Q) "";
          mkCard "GAMMA1" (SFloat 100%Q) "" ] ] = primary :: extensions
    /\ 1 <= List.length extensions
    /\ Forall2 (fun hdu img => Image.fromHDU hdu = Ok img) extensions
         [Image.mk data2D (SFloat 40%Q) None
            (Arr1 (floats [1945 # 4]%Q)) (Arr1 (floats [100]%Q)) None]
    /\ nth_error (@nil object) 1 = None
    /\ as_Header
         (snd (Map.rfits "map.fits"
                 [ mkHDU PyNone [];
                   mkHDU (PyArray data2D)
                     [ mkCard "VXY" (SFloat 40%Q) "";
                       mkCard "NWAVE" (SInt 1) "";
                       mkCard "WAVE1" (SFloat (1945 # 4)%Q) "";
                       mkCard "GAMMA1" (SFloat 100%Q) "" ] ] []))
         1
       = Some (with_provenance (hdu_header primary)).
Proof.
  apply (rfits_returns "map.fits"
           [ mkHDU PyNone [];
             mkHDU (PyArray data2D)
               [ mkCard "VXY" (SFloat 40%Q) "";
                 mkCard "NWAVE" (SInt 1) "";
                 mkCard "WAVE1" (SFloat (1945 # 4)%Q) "";
                 mkCard "GAMMA1" (SFloat 100%Q) "" ] ]
           []
           (Map.mk 1 [Image.mk data2D (SFloat 40%Q) None
                        (Arr1 (floats [1945 # 4]%Q)) (Arr1 (floats [100]%Q)) None])).
  reflexivity.
Defined.

(** X13: a Map without Images is written by [wfits] as the primary HDU
    alone, and [rfits] refuses that list with a DopplerError, leaving the
    store as it is. *)
Theorem empty_Map_is_not_read_back fname st st' m h :
  as_Header st (Map.head m) = Some h ->
  Map.data m = [] ->
  Map.wfits m st = (Ok [mkHDU PyNone h], st)
  /\ is_DopplerError (fst (Map.rfits fname [mkHDU PyNone h] st')) = true
  /\ snd (Map.rfits fname [mkHDU PyNone h] st') = st'.
Proof.
  intros Hh Hd. rewrite (wfits_run _ _ _ Hh), Hd.
  repeat split.
Qed.

Lemma empty_Map_is_not_read_back_witness :
  Map.wfits (Map.mk 0 []) [OHeader []] = (Ok [mkHDU PyNone []], [OHeader []])
  /\ is_DopplerError (fst (Map.rfits "map.fits" [mkHDU PyNone []] [])) = true
  /\ snd (Map.rfits "map.fits" [mkHDU PyNone []] []) = [].
Proof.
  apply (empty_Map_is_not_read_back "map.fits" [OHeader []] []
           (Map.mk 0 []) []).
  - reflexivity.
  - reflexivity.
Defined.

(** * More on reading an HDU *)

(** X15: [fromHDU] does not check for VZ with the required fields: an
    HDU with 3D data and the four required cards but no VZ card raises
    a KeyError, not a DopplerError. *)
Theorem fromHDU_3D_without_VZ d h :
  ndim d = 3 ->
  Header_contains "VXY" h = true ->
  Header_contains "NWAVE" h = true ->
  Header_contains "WAVE1" h = true ->
  Header_contains "GAMMA1" h = true ->
  Header_contains "VZ" h = false ->
  Image.fromHDU (mkHDU (PyArray d) h) = Raise (KeyError "VZ").
Proof.
  intros Hnd Hvxy Hnwave Hwave Hgamma Hvz.
  unfold Image.fromHDU. cbn [hdu_data hdu_header].
  rewrite Hvxy, Hnwave, Hwave, Hgamma. cbn [negb orb].
  unfold Header_getitem at 1. rewrite contains_find in Hvxy.
  destruct (find (has_keyword "VXY") h); [| discriminate].
  cbn [rbind py_ndim]. rewrite Hnd. cbn [Nat.eqb].
  unfold Header_getitem at 1. rewrite contains_find in Hvz.
  destruct (find (has_keyword "VZ") h); [discriminate | reflexivity].
Qed.

Lemma fromHDU_3D_without_VZ_witness :
  Image.fromHDU
    (mkHDU (PyArray data3D)
       [ mkCard "VXY" (SFloat 40%Q) "";
         mkCard "NWAVE" (SInt 1) "";
         mkCard "WAVE1" (SFloat (1945 # 4)%Q) "";
         mkCard "GAMMA1" (SFloat 100%Q) "" ])
  = Raise (KeyError "VZ").
Proof.
  apply (fromHDU_3D_without_VZ data3D
           [ mkCard "VXY" (SFloat 40%Q) "";
             mkCard "NWAVE" (SInt 1) "";
             mkCard "WAVE1" (SFloat (1945 # 4)%Q) "";
             mkCard "GAMMA1" (SFloat 100%Q) "" ]);
    reflexivity.
Defined.

Lemma getitem_same_values h h' k :
  option_map value (find (has_keyword k) h)
  = option_map value (find (has_keyword k) h') ->
  Header_getitem k h = Header_getitem k h'
  /\ Header_contains k h = Header_contains k h'.
Proof.
  intros H. unfold Header_getitem. rewrite !contains_find.
  destruct (find (has_keyword k) h), (find (has_keyword k) h');
    cbn in H; try discriminate; split; congruence.
Qed.

Lemma fromHDU_lines_same_values h h' b count :
  (forall k, option_map value (find (has_keyword k) h)
             = option_map value (find (has_keyword k) h')) ->
  forall s, Image.fromHDU_lines b s count h = Image.fromHDU_lines b s count h'.
Proof.
  intros H. induction count as [| count IH]; intros s; [reflexivity |].
  cbn [Image.fromHDU_lines]. unfold Image.read_float.
  rewrite !(proj1 (getitem_same_values h h' _ (H _))), IH.
  reflexivity.
Qed.

(** X16: [fromHDU] reads a header only through the value of the first
    card of a keyword: two headers that agree on these values, whatever
    their comments, the order of their cards and the cards behind the
    first of a keyword, give the same Image or the same exception. *)
Theorem fromHDU_reads_values_only d h h' :
  (forall k, option_map value (find (has_keyword k) h)
             = option_map value (find (has_keyword k) h')) ->
  Image.fromHDU (mkHDU d h) = Image.fromHDU (mkHDU d h').
Proof.
  intros H. unfold Image.fromHDU. cbn [hdu_data hdu_header].
  rewrite !(proj2 (getitem_same_values h h' _ (H _))).
  rewrite !(proj1 (getitem_same_values h h' _ (H _))).
  destruct (_ || _); [reflexivity |].
  destruct (Header_getitem "VXY" h'); [| reflexivity]. cbn [rbind].
  destruct (py_ndim d); [| reflexivity]. cbn [rbind].
  destruct (if _ =? 3 then _ else _); [| reflexivity]. cbn [rbind].
  destruct (Header_getitem "NWAVE" h'); [| reflexivity]. cbn [rbind].
  destruct (empty_length _); [| reflexivity]. cbn [rbind].
  now rewrite (fromHDU_lines_same_values h h' _ _ H).
Qed.

Lemma fromHDU_reads_values_only_witness :
  Image.fromHDU
    (mkHDU (PyArray data2D)
       [ mkCard "VXY" (SFloat 40%Q) "Vx-Vy pixel size, km/s";
         mkCard "NWAVE" (SInt 1) "Number of wavelengths";
         mkCard "WAVE1" (SFloat (1945 # 4)%Q) "Central wavelength";
         mkCard "GAMMA1" (SFloat 100%Q) "Systemic velocity, km/s" ])
  = Image.fromHDU
      (mkHDU (PyArray data2D)
         [ mkCard "GAMMA1" (SFloat 100%Q) "";
           mkCard "WAVE1" (SFloat (1945 # 4)%Q) "";
           mkCard "NWAVE" (SInt 1) "";
           mkCard "VXY" (SFloat 40%Q) "";
           mkCard "VXY" (SFloat 10%Q) "" ]).
Proof.
  apply (fromHDU_reads_values_only (PyArray data2D)
           [ mkCard "VXY" (SFloat 40%Q) "Vx-Vy pixel size, km/s";
             mkCard "NWAVE" (SInt 1) "Number of wavelengths";
             mkCard "WAVE1" (SFloat (1945 # 4)%Q) "Central wavelength";
             mkCard "GAMMA1" (SFloat 100%Q) "Systemic velocity, km/s" ]
           [ mkCard "GAMMA1" (SFloat 100%Q) "";
             mkCard "WAVE1" (SFloat (1945 # 4)%Q) "";
             mkCard "NWAVE" (SInt 1) "";
             mkCard "VXY" (SFloat 40%Q) "";
             mkCard "VXY" (SFloat 10%Q) "" ]).
  intros k. unfold has_keyword. cbn [find keyword].
  destruct (String.eqb_spec "VXY" k) as [<- | ?]; [reflexivity |].
  destruct (String.eqb_spec "NWAVE" k) as [<- | ?]; [reflexivity |].
  destruct (String.eqb_spec "WAVE1" k) as [<- | ?]; [reflexivity |].
  destruct (String.eqb_spec "GAMMA1" k) as [<- | ?]; reflexivity.
Defined.

(** * More on the constructor *)

(** X17: the constructor does not look at the numbers in [wave] and
    [gamma]: one-dimensional arrays of the same lengths, with entries of
    any sign, are accepted or refused alike, with the same exception,
    and the accepted ones are stored as given. *)
Theorem line_values_unchecked data_ vxy_ ws ws' gs gs' scale_ vz_ :
  List.length ws' = List.length ws ->
  List.length gs' = List.length gs ->
  Image.new data_ vxy_ (PyArray (Arr1 ws')) (PyArray (Arr1 gs')) scale_ vz_
  = (img <- Image.new data_ vxy_ (PyArray (Arr1 ws)) (PyArray (Arr1 gs))
              scale_ vz_ ;;
     Ok (with_lines img (Arr1 ws') (Arr1 gs'))).
Proof.
  intros Hw Hg. rewrite !new_eq. unfold new_direct.
  destruct (checked_data data_ vz_) as [d | e]; [| reflexivity].
  cbn [rbind as_1d ndim Nat.ltb Nat.leb py_len]. rewrite Hw, Hg.
  destruct (negb (List.length gs =? List.length ws)); [reflexivity |].
  destruct (checked_scale scale_ _) as [s | e]; reflexivity.
Qed.

Lemma line_values_unchecked_witness :
  Image.new (PyArray data2D) (SFloat 40%Q)
    (PyArray (Arr1 (floats [- (1945 # 4); - (434)]%Q)))
    (PyArray (Arr1 (floats [- (100); 100]%Q)))
    (PyArray (Arr1 (floats [1; 1 # 2]%Q))) None
  = Ok (Image.mk data2D (SFloat 40%Q) None
          (Arr1 (floats [- (1945 # 4); - (434)]%Q))
          (Arr1 (floats [- (100); 100]%Q))
          (Some (Arr1 (floats [1; 1 # 2]%Q)))).
Proof.
  rewrite (line_values_unchecked (PyArray data2D) (SFloat 40%Q)
             (floats [1945 # 4; 434]%Q) (floats [- (1945 # 4); - (434)]%Q)
             (floats [100; 100]%Q) (floats [- (100); 100]%Q)
             (PyArray (Arr1 (floats [1; 1 # 2]%Q))) None eq_refl eq_refl).
  reflexivity.
Defined.
